(** * Point cloud to graph transform (matsciml): a shallow embedding

    Source: [matsciml/datasets/transforms/representations/graphs.py],
    class [PointCloudToGraphTransform].

    Conventions of the embedding:
    - a tensor is a shape (at least one dimension) and a flat, row-major
      storage of one of three element kinds (floating point, 64-bit integer,
      boolean).  Floating-point elements are IEEE binary64 values, which
      contain every half- and single-precision value.  A comparison of a
      tensor with a Python float compares these values; torch may first
      round the Python float to the precision of the tensor, which changes
      nothing for a float that this precision represents (such as the
      cutoffs 7.0 and 20.0 of the sources);
    - a sample ([DataDict]) is a finite map from string keys to values: torch
      tensors, numpy arrays, numbers and references to graph objects;
    - graph objects are mutable and shared by reference in the source: they
      live in a heap and the sample holds their addresses;
    - a Python exception is a [Raise] result; warnings are collected in the
      state;
    - the calls into torch, DGL and PyTorch Geometric are modelled after the
      documentation of these libraries ([Module torch], [Module dgl],
      [Module pyg]); [torch.cdist] is a parameter. *)

From Stdlib Require Import Floats.PrimFloat Floats.SpecFloat Floats.FloatOps Floats.FloatAxioms ZArith.
From stdpp Require Import gmap strings list fin_maps.

Local Open Scope string_scope.
Local Open Scope list_scope.
Local Open Scope nat_scope.

(** ** Exceptions and results *)

Inductive exn :=
| AssertionError (msg : string)
| KeyError (key : string)
| IndexError
| TypeError
| ValueError
| RuntimeError
| AttributeError
| DGLError.

Inductive result (A : Type) :=
| Ok (a : A)
| Raise (e : exn).
Arguments Ok {A} a.
Arguments Raise {A} e.

#[global] Instance result_ret : MRet result := fun A a => Ok a.
#[global] Instance result_bind : MBind result := fun A B f r =>
  match r with
  | Ok a => f a
  | Raise e => Raise e
  end.

Definition is_ok {A} (r : result A) : bool :=
  match r with Ok _ => true | Raise _ => false end.

(** ** Tensors *)

Inductive storage :=
| Floats (xs : list float)
| Longs (zs : list Z)
| Bools (bs : list bool).

Record tensor := Tensor { dim0 : nat; dims : list nat; elems : storage }.

Definition shape (t : tensor) : list nat := dim0 t :: dims t.
Definition ndim (t : tensor) : nat := length (shape t).
Definition prod (s : list nat) : nat := foldr Nat.mul 1 s.

Definition numel (s : storage) : nat :=
  match s with
  | Floats xs => length xs
  | Longs zs => length zs
  | Bools bs => length bs
  end.

(** A storage operation that does not look at the elements. *)
Definition smap (f : forall A, list A -> list A) (s : storage) : storage :=
  match s with
  | Floats xs => Floats (f _ xs)
  | Longs zs => Longs (f _ zs)
  | Bools bs => Bools (f _ bs)
  end.

(** Promotion of integers and booleans to floating point, as torch does when
    such a tensor meets a Python float. *)
Definition float_of_Z (z : Z) : float := SF2Prim (binary_normalize prec emax z 0 false).
Definition float_of_bool (b : bool) : float := if b then 1%float else 0%float.

Definition as_floats (s : storage) : list float :=
  match s with
  | Floats xs => xs
  | Longs zs => float_of_Z <$> zs
  | Bools bs => float_of_bool <$> bs
  end.

Module torch.

(** [t.size(k)]: out of range raises IndexError. *)
Definition size (t : tensor) (k : nat) : result nat :=
  match shape t !! k with
  | Some n => Ok n
  | None => Raise IndexError
  end.

(** [t.size(-1)]. *)
Definition size_last (t : tensor) : nat := List.last (shape t) (dim0 t).

(** The two trailing dimensions of a shape. *)
Definition last2 (s : list nat) : option (nat * nat) :=
  match rev s with
  | m :: n :: _ => Some (n, m)
  | _ => None
  end.

(** [torch.tril(t)] (main diagonal kept): the entry at row [i] and column
    [j] of each trailing matrix survives when [j <= i], else it is zero. *)
Definition tril_keep (n m p : nat) : bool := ((p mod m) <=? ((p / m) mod n))%nat.

Definition tril_storage (n m : nat) (s : storage) : storage :=
  match s with
  | Floats xs => Floats (imap (fun p x => if tril_keep n m p then x else 0%float) xs)
  | Longs zs => Longs (imap (fun p z => if tril_keep n m p then z else 0%Z) zs)
  | Bools bs => Bools (imap (fun p b => if tril_keep n m p then b else false) bs)
  end.

Definition tril (t : tensor) : result tensor :=
  match last2 (shape t) with
  | Some (n, m) => Ok (Tensor (dim0 t) (dims t) (tril_storage n m (elems t)))
  | None => Raise RuntimeError
  end.

(** [c < t] and [t < c] for a Python float [c]: boolean tensors. *)
Definition scalar_lt (c : float) (t : tensor) : tensor :=
  Tensor (dim0 t) (dims t) (Bools ((fun x => PrimFloat.ltb c x) <$> as_floats (elems t))).
Definition lt_scalar (t : tensor) (c : float) : tensor :=
  Tensor (dim0 t) (dims t) (Bools ((fun x => PrimFloat.ltb x c) <$> as_floats (elems t))).

(** [a * b] for tensors of one shape: conjunction on booleans, product
    otherwise. *)
Definition mul (a b : tensor) : tensor :=
  Tensor (dim0 a) (dims a)
    match elems a, elems b with
    | Bools x, Bools y => Bools (zip_with andb x y)
    | Longs x, Longs y => Longs (zip_with Z.mul x y)
    | Longs x, Bools y => Longs (zip_with (fun (z : Z) (b : bool) => if b then z else 0%Z) x y)
    | Bools x, Longs y => Longs (zip_with (fun (b : bool) (z : Z) => if b then z else 0%Z) x y)
    | x, y => Floats (zip_with PrimFloat.mul (as_floats x) (as_floats y))
    end.

(** Elements that count as true. *)
Definition nonzero (s : storage) : list bool :=
  match s with
  | Floats xs => (fun x => negb (PrimFloat.eqb x 0%float)) <$> xs
  | Longs zs => (fun z => negb (Z.eqb z 0)) <$> zs
  | Bools bs => bs
  end.

(** Flat positions, from [p] on, of the true elements. *)
Fixpoint where_true (p : nat) (bs : list bool) : list nat :=
  match bs with
  | [] => []
  | b :: bs' => (if b then [p] else []) ++ where_true (S p) bs'
  end.

(** The multi-index of a flat position. *)
Fixpoint unravel (s : list nat) (p : nat) : list nat :=
  match s with
  | [] => []
  | _ :: rest => (p / prod rest)%nat :: unravel rest (p mod prod rest)%nat
  end.

(** [torch.argwhere(t).tolist()]: the multi-indices of the true elements,
    in row-major order. *)
Definition argwhere_tolist (t : tensor) : list (list nat) :=
  unravel (shape t) <$> where_true 0 (nonzero (elems t)).

(** [x > c] for a Python float [c]. *)
Definition gt_scalar (t : tensor) (c : float) : tensor := scalar_lt c t.

(** A Python index into a dimension of size [n]: negative indices count
    from the end. *)
Definition norm_index (n : nat) (z : Z) : option nat :=
  if decide (0 <= z < Z.of_nat n)%Z then Some (Z.to_nat z)
  else if decide (- Z.of_nat n <= z < 0)%Z then Some (Z.to_nat (z + Z.of_nat n))
  else None.

(** Rows of [r] elements each, kept where the mask is true. *)
Fixpoint select_rows {A} (r : nat) (bs : list bool) (xs : list A) : list A :=
  match bs with
  | [] => []
  | b :: bs' => (if b then take r xs else []) ++ select_rows r bs' (drop r xs)
  end.

(** Rows of [r] elements each, picked by index. *)
Definition gather_rows {A} (r : nat) (ks : list nat) (xs : list A) : list A :=
  concat ((fun k => take r (drop (k * r) xs)) <$> ks).

Definition count_true (bs : list bool) : nat := length (filter (fun b => b = true) bs).

(** [x[mask]]: a boolean mask must have the leading dimensions of [x] and
    keeps the rows where it is true; an integer tensor picks rows of the
    first dimension by index; a floating-point tensor is no index. *)
Definition getitem (x mask : tensor) : result tensor :=
  match elems mask with
  | Bools bs =>
      if decide (take (ndim mask) (shape x) = shape mask)
      then let rest := drop (ndim mask) (shape x) in
           Ok (Tensor (count_true bs) rest
                 (smap (fun A => select_rows (prod rest) bs) (elems x)))
      else Raise IndexError
  | Longs ix =>
      match mapM (norm_index (dim0 x)) ix with
      | Some ks =>
          Ok (Tensor (dim0 mask) (dims mask ++ dims x)
                (smap (fun A => gather_rows (prod (dims x)) ks) (elems x)))
      | None => Raise IndexError
      end
  | Floats _ => Raise IndexError
  end.

(** The flat position of a multi-index. *)
Fixpoint ravel (s idx : list nat) : nat :=
  match s, idx with
  | _ :: rest, i :: idx' => i * prod rest + ravel rest idx'
  | _, _ => 0
  end.

(** [t.T.contiguous()]: the dimensions reversed. *)
Definition T (t : tensor) : tensor :=
  let s' := rev (shape t) in
  Tensor (hd 0 s') (tl s')
    (smap (fun A xs =>
             omap (fun p => xs !! ravel (shape t) (rev (unravel s' p)))
                  (seq 0 (length xs)))
          (elems t)).

(** Rounding of a binary64 value to half precision (11 bits of precision,
    exponents up to 16), to nearest with ties to even; the result is again
    a binary64 value. *)
Definition half_of (x : float) : float :=
  match Prim2SF x with
  | S754_finite s m e => SF2Prim (binary_normalize 11 16 (cond_Zopp s (Zpos m)) e s)
  | _ => x
  end.

(** [t.to(torch.float16)]. *)
Definition to_float16 (t : tensor) : tensor :=
  Tensor (dim0 t) (dims t) (Floats (half_of <$> as_floats (elems t))).

(** [torch.LongTensor(rows)] for a list of integer lists: an empty list
    gives a one-dimensional tensor of size 0. *)
Definition LongTensor (rows : list (list nat)) : result tensor :=
  match rows with
  | [] => Ok (Tensor 0 [] (Longs []))
  | r :: _ =>
      if forallb (fun e => length e =? length r)%nat rows
      then Ok (Tensor (length rows) [length r] (Longs (Z.of_nat <$> concat rows)))
      else Raise ValueError
  end.

End torch.

(** ** Values, graph objects and samples *)

Definition loc := nat.

Inductive value :=
| VTensor (t : tensor)
| VNdarray (a : tensor)
| VFloat (x : float)
| VGraph (l : loc).

Inductive AbstractGraph :=
| DGLGraph (num_nodes : nat) (edges : list (nat * nat)) (ndata edata : gmap string tensor)
| PyGGraph (attrs : gmap string value).

(** The operations of this file act on torch tensors; another kind of value
    in their place is a type error. *)
Definition as_tensor (v : value) : result tensor :=
  match v with
  | VTensor t => Ok t
  | _ => Raise TypeError
  end.

(** [isinstance(v, GraphTypes)]. *)
Definition is_graph (v : value) : bool :=
  match v with
  | VGraph _ => true
  | _ => false
  end.

(** [data[key]]. *)
Definition dict_getitem (data : gmap string value) (key : string) : result value :=
  match data !! key with
  | Some v => Ok v
  | None => Raise (KeyError key)
  end.

Module dgl.

(** The edge list unzipped into the pair of source and destination ids
    (Python unpacks a zip of the entries): the shortest entry must have
    exactly two elements. *)
Definition elist2tensor (elist : list (list nat)) : result (list (nat * nat)) :=
  match elist with
  | [] => Ok []
  | _ =>
      if forallb (fun e => 2 <=? length e)%nat elist
         && existsb (fun e => length e =? 2)%nat elist
      then Ok ((fun e => (nth 0 e 0, nth 1 e 0)) <$> elist)
      else Raise ValueError
  end.

(** [dgl.graph(adj_list, num_nodes=n)]: every node id must be below [n]. *)
Definition graph (adj_list : list (list nat)) (n : nat) : result AbstractGraph :=
  es ← elist2tensor adj_list;
  if forallb (fun e => (fst e <? n) && (snd e <? n))%nat es
  then Ok (DGLGraph n es ∅ ∅)
  else Raise DGLError.

(** Assignment to a feature frame of [n] rows: DGL accepts a tensor whose
    first dimension is [n] and raises otherwise. *)
Definition frame_check (n : nat) (v : value) : result tensor :=
  match v with
  | VTensor t => if decide (dim0 t = n) then Ok t else Raise DGLError
  | VNdarray a => if decide (dim0 a = n) then Raise AttributeError else Raise DGLError
  | _ => Raise AttributeError
  end.

(** [g.ndata[key] = v]. *)
Definition set_ndata (g : AbstractGraph) (key : string) (v : value) : result AbstractGraph :=
  match g with
  | DGLGraph n es nd ed => t ← frame_check n v; Ok (DGLGraph n es (<[key:=t]> nd) ed)
  | PyGGraph _ => Raise AttributeError
  end.

(** [g.edata[key] = v]. *)
Definition set_edata (g : AbstractGraph) (key : string) (v : value) : result AbstractGraph :=
  match g with
  | DGLGraph n es nd ed =>
      t ← frame_check (length es) v; Ok (DGLGraph n es nd (<[key:=t]> ed))
  | PyGGraph _ => Raise AttributeError
  end.

(** [dgl.to_bidirected(g, copy_ndata=True)]: a new simple graph on the
    same nodes holding each edge and its reverse once; node features are
    kept and edge features are not.  DGL fixes no edge order; the model
    lists them as met. *)
Definition to_bidirected (g : AbstractGraph) : result AbstractGraph :=
  match g with
  | DGLGraph n es nd ed =>
      Ok (DGLGraph n (remove_dups (es ++ ((fun e => (snd e, fst e)) <$> es))) nd ∅)
  | PyGGraph _ => Raise AttributeError
  end.

End dgl.

Module pyg.

(** [Data(edge_index=e, pos=p)]. *)
Definition Data (edge_index pos : tensor) : AbstractGraph :=
  PyGGraph (<["pos" := VTensor pos]> (<["edge_index" := VTensor edge_index]> ∅)).

(** [setattr(g, key, v)] on a [Data] object: no check. *)
Definition setattr (g : AbstractGraph) (key : string) (v : value) : result AbstractGraph :=
  match g with
  | PyGGraph attrs => Ok (PyGGraph (<[key:=v]> attrs))
  | DGLGraph _ _ _ _ => Raise AttributeError
  end.

End pyg.

(** ** The state of a call

    One call works on one sample dictionary, mutated in place, on the graph
    objects allocated so far, and on the warnings issued. *)

Inductive warning :=
| MissingNodeData (key : string)
| MissingEdgeData (key : string).

Record world := World {
  data : gmap string value;
  heap : list AbstractGraph;
  warnings : list warning }.

Definition M (A : Type) : Type := world -> result (A * world).

#[global] Instance M_ret : MRet M := fun A a w => Ok (a, w).
#[global] Instance M_bind : MBind M := fun A B f m w =>
  match m w with
  | Ok (a, w') => f a w'
  | Raise e => Raise e
  end.

Definition lift {A} (r : result A) : M A := fun w =>
  match r with
  | Ok a => Ok (a, w)
  | Raise e => Raise e
  end.

Definition get_data : M (gmap string value) := fun w => Ok (data w, w).

(** [data[key] = v]. *)
Definition dict_setitem (key : string) (v : value) : M unit := fun w =>
  Ok (tt, World (<[key:=v]> (data w)) (heap w) (warnings w)).

(** [del data[key]]. *)
Definition dict_delitem (key : string) : M unit := fun w =>
  match data w !! key with
  | Some _ => Ok (tt, World (delete key (data w)) (heap w) (warnings w))
  | None => Raise (KeyError key)
  end.

(** [key in data]. *)
Definition dict_contains (d : gmap string value) (key : string) : bool :=
  match d !! key with
  | Some _ => true
  | None => false
  end.

(** A new graph object. *)
Definition alloc (g : AbstractGraph) : M value := fun w =>
  Ok (VGraph (length (heap w)), World (data w) (heap w ++ [g]) (warnings w)).

(** The object a value refers to. *)
Definition deref (v : value) : M AbstractGraph := fun w =>
  match v with
  | VGraph l =>
      match heap w !! l with
      | Some g => Ok (g, w)
      | None => Raise AttributeError
      end
  | _ => Raise AttributeError
  end.

(** An in-place update of the graph object a value refers to. *)
Definition mutate (v : value) (f : AbstractGraph -> result AbstractGraph) : M unit := fun w =>
  match v with
  | VGraph l =>
      match heap w !! l with
      | Some g =>
          match f g with
          | Ok g' => Ok (tt, World (data w) (<[l:=g']> (heap w)) (warnings w))
          | Raise e => Raise e
          end
      | None => Raise AttributeError
      end
  | _ => Raise AttributeError
  end.

Definition warn (x : warning) : M unit := fun w =>
  Ok (tt, World (data w) (heap w) (warnings w ++ [x])).

Definition assert_ (b : bool) (msg : string) : M unit :=
  lift (if b then Ok tt else Raise (AssertionError msg)).

Fixpoint for_each {A} (l : list A) (body : A -> M unit) : M unit :=
  match l with
  | [] => mret tt
  | x :: l' => body x;; for_each l' body
  end.

(** ** The transform *)

Record PointCloudToGraphTransform := Transform {
  backend : string;
  cutoff_dist : float;
  node_keys : list string;
  edge_keys : option (list string) }.

(** The [node_keys] setter: the keys pass through a set, which removes
    repetitions and fixes no order. *)
Definition set_node_keys (values : list string) : list string :=
  elements (list_to_set values : gset string).

(** [__init__]. *)
Definition init (backend : string) (cutoff_dist : float)
    (node_keys : list string) (edge_keys : option (list string)) :=
  Transform backend cutoff_dist (set_node_keys node_keys) edge_keys.

Definition default_cutoff_dist : float := 7%float.
Definition default_node_keys : list string := ["atomic_numbers"; "force"].

(** Modelled from the spec: the base class [RepresentationTransform] is not
    among the sources.  [_check_for_type(data, GraphTypes)] tells whether the
    sample contains a graph-typed value. *)
Definition _check_for_type (d : gmap string value) (p : value -> bool) : bool :=
  existsb (fun kv => p (snd kv)) (map_to_list d).

(** Modelled from the spec: the base class hooks [prologue] and [epilogue]
    do nothing. *)
Definition super_prologue : M unit := mret tt.
Definition super_epilogue : M unit := mret tt.

Definition prologue (self : PointCloudToGraphTransform) : M unit :=
  d ← get_data;
  assert_ (negb (_check_for_type d is_graph))
    "Data structure already contains a graph: transform shouldn't be required.";;
  assert_ (dict_contains d "pos")
    "No atomic positions 'pos' key present in data sample.";;
  let has_atom_key :=
    foldl (fun acc key => if dict_contains d key then true else acc) false
      ["atomic_numbers"; "pc_features"] in
  assert_ has_atom_key
    "Neither 'atomic_numbers' nor 'pc_features' keys were present in data sample.";;
  super_prologue.

Definition _apply_mask (atomic_numbers pos : value) (d : gmap string value)
    : result (tensor * tensor) :=
  mask ← match d !! "src_mask" with
         | Some m => Ok m
         | None => a ← as_tensor atomic_numbers;
                   Ok (VTensor (torch.gt_scalar a 0%float))
         end;
  a ← as_tensor atomic_numbers;
  m ← as_tensor mask;
  atomic_numbers' ← torch.getitem a m;
  p ← as_tensor pos;
  pos' ← torch.getitem p m;
  Ok (atomic_numbers', pos').

Definition edges_from_dist (dist_mat : value) (cutoff : float) : result (list (list nat)) :=
  dist_mat ← match dist_mat with
             | VNdarray a => Ok a
             | VTensor t => Ok t
             | _ => Raise TypeError
             end;
  lower_tri ← torch.tril dist_mat;
  let mask := torch.mul (torch.scalar_lt 0%float lower_tri)
                        (torch.lt_scalar lower_tri cutoff) in
  Ok (torch.argwhere_tolist mask).

Section Transform.

(** The numeric kernel [torch.cdist(x, y, p=2)], taken as given. *)
Variable cdist : tensor -> tensor -> result tensor.

(** [matsciml.datasets.utils.retrieve_pointcloud_node_types], which is not
    among the sources: from the pairwise feature block to the source and
    destination node types. *)
Variable retrieve_pointcloud_node_types : value -> result (tensor * tensor).

Definition get_atom_types (d : gmap string value) : result value :=
  if dict_contains d "atomic_numbers" then dict_getitem d "atomic_numbers"
  else if dict_contains d "pc_features" then
    pc_features ← dict_getitem d "pc_features";
    '(src_types, dst_types) ← retrieve_pointcloud_node_types pc_features;
    pos ← dict_getitem d "pos";
    pos ← as_tensor pos;
    if decide (dim0 src_types = dim0 pos) then Ok (VTensor src_types)
    else Raise (AssertionError "Number of source nodes != number of atom positions!")
  else Raise (KeyError "No suitable atom types to read from; expect either 'atomic_numbers' or 'pc_features' to read from a data sample.").

Definition node_distances (coords : tensor) : result tensor :=
  if negb (ndim coords =? 2)%nat
  then Raise (AssertionError "Expected atom coordinates to be 2D tensor.")
  else if negb (torch.size_last coords =? 3)%nat
  then Raise (AssertionError "Expected XYZ coordinates.")
  else dist ← cdist coords coords; Ok (torch.to_float16 dist).

(** The distance matrix of a conversion: recomputed only when the sample
    has none. *)
Definition distance_matrix_of (d : gmap string value) (coords : tensor) : result value :=
  if negb (dict_contains d "distance_matrix")
  then dist_mat ← node_distances coords; Ok (VTensor dist_mat)
  else dict_getitem d "distance_matrix".

Definition _convert_dgl (self : PointCloudToGraphTransform) : M unit :=
  d ← get_data;
  atom_numbers ← lift (get_atom_types d);
  coords ← lift (dict_getitem d "pos");
  '(atom_numbers, coords) ← lift (_apply_mask atom_numbers coords d);
  let num_nodes := dim0 atom_numbers in
  dist_mat ← lift (distance_matrix_of d coords);
  adj_list ← lift (edges_from_dist dist_mat (cutoff_dist self));
  g ← lift (dgl.graph adj_list num_nodes);
  g ← lift (dgl.set_ndata g "atomic_numbers" (VTensor atom_numbers));
  g ← lift (dgl.set_ndata g "pos" (VTensor coords));
  g ← alloc g;
  dict_setitem "graph" g.

Definition _convert_pyg (self : PointCloudToGraphTransform) : M unit :=
  d ← get_data;
  atom_numbers ← lift (get_atom_types d);
  coords ← lift (dict_getitem d "pos");
  '(atom_numbers, coords) ← lift (_apply_mask atom_numbers coords d);
  dist_mat ← lift (distance_matrix_of d coords);
  adj_list ← lift (edges_from_dist dist_mat (cutoff_dist self));
  edge_index ← lift (torch.LongTensor adj_list);
  size0 ← lift (torch.size edge_index 0);
  transpose ← lift (if negb (size0 =? 2)%nat
                    then size1 ← torch.size edge_index 1; Ok (size1 =? 2)%nat
                    else Ok false);
  let edge_index := if transpose : bool then torch.T edge_index else edge_index in
  g ← lift (pyg.setattr (pyg.Data edge_index coords) "atomic_numbers" (VTensor atom_numbers));
  g ← alloc g;
  dict_setitem "graph" g.

Definition convert (self : PointCloudToGraphTransform) : M unit :=
  if decide (backend self = "dgl") then _convert_dgl self else _convert_pyg self.

(** The copiers receive the sample and the graph; the sample is the one of
    the state.  [data[key]] is evaluated first, so a missing key raises its
    KeyError before the graph is touched. *)
Definition _copy_node_keys_dgl (self : PointCloudToGraphTransform) (graph : value) : M unit :=
  for_each (node_keys self) (fun key =>
    d ← get_data;
    match d !! key with
    | Some v => mutate graph (fun g => dgl.set_ndata g key v)
    | None => warn (MissingNodeData key)
    end).

Definition _copy_edge_keys_dgl (self : PointCloudToGraphTransform) (graph : value) : M unit :=
  match edge_keys self with
  | Some ((_ :: _) as keys) =>
      for_each keys (fun key =>
        d ← get_data;
        match d !! key with
        | Some v => mutate graph (fun g => dgl.set_edata g key v)
        | None => warn (MissingEdgeData key)
        end)
  | _ => mret tt
  end.

Definition _copy_node_keys_pyg (self : PointCloudToGraphTransform) (graph : value) : M unit :=
  for_each (node_keys self) (fun key =>
    d ← get_data;
    match d !! key with
    | Some v => mutate graph (fun g => pyg.setattr g key v)
    | None => warn (MissingNodeData key)
    end).

Definition _copy_edge_keys_pyg (self : PointCloudToGraphTransform) (graph : value) : M unit :=
  match edge_keys self with
  | Some ((_ :: _) as keys) =>
      for_each keys (fun key =>
        d ← get_data;
        match d !! key with
        | Some v => mutate graph (fun g => pyg.setattr g key v)
        | None => warn (MissingEdgeData key)
        end)
  | _ => mret tt
  end.

Definition copy_node_keys (self : PointCloudToGraphTransform) (graph : value) : M unit :=
  if decide (backend self = "dgl") then _copy_node_keys_dgl self graph
  else _copy_node_keys_pyg self graph.

Definition copy_edge_keys (self : PointCloudToGraphTransform) (graph : value) : M unit :=
  if decide (backend self = "dgl") then _copy_edge_keys_dgl self graph
  else _copy_edge_keys_pyg self graph.

Definition redundant_keys : list string :=
  ["pos"; "pc_features"; "distance_matrix"; "atomic_numbers";
   "src_nodes"; "dst_nodes"; "sizes"].

(** [try: del data[key]  except KeyError: pass]. *)
Definition try_delitem (key : string) : M unit := fun w =>
  match dict_delitem key w with
  | Raise (KeyError _) => Ok (tt, w)
  | r => r
  end.

Definition epilogue (self : PointCloudToGraphTransform) : M unit :=
  d ← get_data;
  g ← lift (dict_getitem d "graph");
  copy_node_keys self g;;
  copy_edge_keys self g;;
  for_each redundant_keys try_delitem;;
  (if decide (backend self = "dgl") then
     d ← get_data;
     g ← lift (dict_getitem d "graph");
     g ← deref g;
     g ← lift (dgl.to_bidirected g);
     g ← alloc g;
     dict_setitem "graph" g
   else mret tt);;
  super_epilogue.

(** Modelled from the spec: [__call__] of the base class runs the
    validator, the conversion and the finalizer on the sample. *)
Definition call (self : PointCloudToGraphTransform) : M unit :=
  prologue self;;
  convert self;;
  epilogue self.

End Transform.

(** ** Observations used to state the properties *)

(** The entry of a tensor at a multi-index, promoted to floating point. *)
Definition entry (t : tensor) (idx : list nat) : option float :=
  as_floats (elems t) !! torch.ravel (shape t) idx.

(** The entry of [D] at row [i], column [j] exists and lies strictly between
    0 and [c]. *)
Definition within_cutoff (D : tensor) (c : float) (i j : nat) : Prop :=
  ∃ x, entry D [i; j] = Some x
       ∧ PrimFloat.ltb 0%float x = true ∧ PrimFloat.ltb x c = true.

(** The filtered labels and positions of a sample, as both conversions
    compute them. *)
Definition masked_inputs (retrieve : value → result (tensor * tensor))
    (d : gmap string value) : result (tensor * tensor) :=
  atom_numbers ← get_atom_types retrieve d;
  coords ← dict_getitem d "pos";
  _apply_mask atom_numbers coords d.

(** The edge list derived for a sample whose filtered positions are
    [coords]. *)
Definition derived_edges (cdist : tensor → tensor → result tensor)
    (self : PointCloudToGraphTransform)
    (d : gmap string value) (coords : tensor) : result (list (list nat)) :=
  dist_mat ← distance_matrix_of cdist d coords;
  edges_from_dist dist_mat (cutoff_dist self).

(** The configured keys that a sample has, with their values, and those it
    lacks. *)
Definition present_items (d : gmap string value) (keys : list string)
    : list (string * value) :=
  omap (fun k => (fun v => (k, v)) <$> d !! k) keys.
Definition absent_keys (d : gmap string value) (keys : list string) : list string :=
  filter (fun k => d !! k = None) keys.

(** Assignments made one after the other. *)
Fixpoint assign_all (set : AbstractGraph → string → value → result AbstractGraph)
    (items : list (string * value)) (g : AbstractGraph) : result AbstractGraph :=
  match items with
  | [] => Ok g
  | (k, v) :: items' => g' ← set g k v; assign_all set items' g'
  end.

(** The assignment each backend uses for node and for edge attributes. *)
Definition node_setter (self : PointCloudToGraphTransform) :=
  if decide (backend self = "dgl") then dgl.set_ndata else pyg.setattr.
Definition edge_setter (self : PointCloudToGraphTransform) :=
  if decide (backend self = "dgl") then dgl.set_edata else pyg.setattr.


(** The copier's work on a graph object: node keys, then edge keys. *)
Definition copy_attributes (self : PointCloudToGraphTransform) (d : gmap string value)
    (g : AbstractGraph) : result AbstractGraph :=
  g' ← assign_all (node_setter self) (present_items d (node_keys self)) g;
  assign_all (edge_setter self) (present_items d (default [] (edge_keys self))) g'.

(** The sample once the point-cloud keys are deleted. *)
Definition without_keys (d : gmap string value) (keys : list string) : gmap string value :=
  foldl (fun d k => delete k d) d keys.

(** The graph each backend builds from an edge list and the filtered
    labels and positions: the closing steps of [_convert_dgl] and of
    [_convert_pyg]. *)
Definition dgl_materialize (adj_list : list (list nat)) (atom_numbers coords : tensor)
    : result AbstractGraph :=
  g ← dgl.graph adj_list (dim0 atom_numbers);
  g ← dgl.set_ndata g "atomic_numbers" (VTensor atom_numbers);
  dgl.set_ndata g "pos" (VTensor coords).

Definition pyg_edge_index (adj_list : list (list nat)) : result tensor :=
  edge_index ← torch.LongTensor adj_list;
  size0 ← torch.size edge_index 0;
  transpose ← (if negb (size0 =? 2)
               then size1 ← torch.size edge_index 1; Ok (size1 =? 2)
               else Ok false);
  Ok (if transpose : bool then torch.T edge_index else edge_index).

Definition pyg_materialize (adj_list : list (list nat)) (atom_numbers coords : tensor)
    : result AbstractGraph :=
  edge_index ← pyg_edge_index adj_list;
  pyg.setattr (pyg.Data edge_index coords) "atomic_numbers" (VTensor atom_numbers).

Definition materialize (self : PointCloudToGraphTransform) :=
  if decide (backend self = "dgl") then dgl_materialize else pyg_materialize.

(** ** Sample data for the examples *)

Definition self_loop_matrix : tensor := Tensor 2 [2] (Floats [0.5; 3; 3; 0.5]%float).
Definition two_atoms_matrix : storage := Floats [0; 5; 5; 0]%float.

(** A binary64 evaluation of the Euclidean distance kernel, to run the
    examples: the distance of every row of [x] to every row of [y]. *)
Fixpoint rows_of {A} (n k : nat) (xs : list A) : list (list A) :=
  match n with
  | 0 => []
  | S n' => take k xs :: rows_of n' k (drop k xs)
  end.

Definition euclid (u v : list float) : float :=
  PrimFloat.sqrt
    (foldl PrimFloat.add 0%float
       (zip_with (fun a b => PrimFloat.mul (PrimFloat.sub a b) (PrimFloat.sub a b)) u v)).

Definition cdist_reference (x y : tensor) : result tensor :=
  match elems x, elems y, dims x, dims y with
  | Floats xs, Floats ys, [k], [k'] =>
      if decide (k = k')
      then Ok (Tensor (dim0 x) [dim0 y]
                 (Floats (u ← rows_of (dim0 x) k xs;
                          v ← rows_of (dim0 y) k ys; [euclid u v])))
      else Raise RuntimeError
  | _, _, _, _ => Raise RuntimeError
  end.

(** No feature block is read in the examples. *)
Definition no_pc_features (f : value) : result (tensor * tensor) := Raise TypeError.

(** One atom at the origin. *)
Definition single_atom : gmap string value :=
  <["pos" := VTensor (Tensor 1 [3] (Floats [0; 0; 0]%float))]>
    (<["atomic_numbers" := VTensor (Tensor 1 [] (Longs [1%Z]))]> ∅).

(** Two carbon atoms 5 apart, with a target value. *)
Definition two_atoms : gmap string value :=
  <["pos" := VTensor (Tensor 2 [3] (Floats [0; 0; 0; 3; 4; 0]%float))]>
    (<["atomic_numbers" := VTensor (Tensor 2 [] (Longs [6; 6]%Z))]>
       (<["energy" := VFloat 1.5%float]> ∅)).


(** Two carbon atoms 5 apart and a padding entry. *)
Definition padded_pair : gmap string value :=
  <["pos" := VTensor (Tensor 3 [3] (Floats [0; 0; 0; 3; 4; 0; 0; 0; 0]%float))]>
    (<["atomic_numbers" := VTensor (Tensor 3 [] (Longs [6; 6; 0]%Z))]> ∅).

(** A sample whose 'graph' key holds a number. *)
Definition stale_graph_key : gmap string value :=
  <["graph" := VFloat 0%float]> two_atoms.

Definition example_transform (backend : string) : PointCloudToGraphTransform :=
  init backend default_cutoff_dist default_node_keys None.

(** ** Further observations *)

(** Row-major order of index pairs: by row, then by column. *)
Definition row_major_lt (e e' : list nat) : Prop :=
  match e, e' with
  | [i; j], [i'; j'] => i < i' ∨ (i = i' ∧ j < j')
  | _, _ => False
  end.

(** A tensor whose storage has as many elements as its shape says. *)
Definition well_formed (t : tensor) : Prop := numel (elems t) = prod (shape t).

(** A label that the default mask keeps. *)
Definition positive (x : float) : Prop := PrimFloat.ltb 0%float x = true.


(** Every edge joins two of the [n] nodes. *)
Definition edges_in_range (n : nat) (es : list (nat * nat)) : Prop :=
  Forall (fun e => e.1 < n ∧ e.2 < n) es.

(** A supplied 3 by 3 distance matrix for a sample of which the mask keeps
    two atoms. *)
Definition padded_pair_with_distances : gmap string value :=
  <["distance_matrix" :=
      VTensor (Tensor 3 [3] (Floats [0; 5; 1; 5; 0; 1; 1; 1; 0]%float))]> padded_pair.

(** An edge list as the adjacency engine gives it: one two-element row per
    edge. *)
Definition pair_rows (es : list (nat * nat)) : list (list nat) :=
  (fun e => [e.1; e.2]) <$> es.

(** What a graph object holds under a node attribute. *)
Definition node_attribute (g : AbstractGraph) (k : string) : option value :=
  match g with
  | DGLGraph _ _ nd _ => VTensor <$> nd !! k
  | PyGGraph attrs => attrs !! k
  end.


(** A value that a frame of [n] rows accepts: a torch tensor of [n] rows. *)
Definition fits_frame (n : nat) (v : value) : Prop :=
  ∃ t, v = VTensor t ∧ dim0 t = n.


(** The same transform with its edge keys unset. *)
Definition without_edge_keys (self : PointCloudToGraphTransform) : PointCloudToGraphTransform :=
  Transform (backend self) (cutoff_dist self) (node_keys self) None.

(** The configured keys that a completed transform warns about: those the
    sample lacks, 'graph' apart, which the conversion has set by then. *)
Definition missing_keys (d : gmap string value) (keys : list string) : list string :=
  filter (fun k => k ≠ "graph" ∧ d !! k = None) keys.

(** The transform as the example script [single_task_egnn.py] configures
    it, and as the test [test_graph_transform] does, with the default node
    keys. *)
Definition egnn_transform : PointCloudToGraphTransform :=
  init "dgl" 20%float ["pos"; "atomic_numbers"] None.


(** Two atoms with a feature for their one edge, and a transform that asks
    for it and for keys that the sample lacks. *)
Definition bonded_atoms : gmap string value :=
  <["bond_order" := VTensor (Tensor 1 [] (Floats [1]%float))]> two_atoms.

Definition bond_transform (backend : string) : PointCloudToGraphTransform :=
  init backend 20%float ["atomic_numbers"; "force"] (Some ["bond_order"; "bond_length"]).

(** The message of the KeyError of the atom-type resolver. *)
Definition no_atom_types_message : string :=
  "No suitable atom types to read from; expect either 'atomic_numbers' or 'pc_features' to read from a data sample.".



(** * Properties *)

(** ** Flat positions and multi-indices *)

Lemma where_true_spec (bs : list bool) (p q : nat) :
  q ∈ torch.where_true p bs ↔ ∃ k, q = p + k ∧ bs !! k = Some true.
Proof.
  revert p. induction bs as [|b bs IH]; intros p; simpl.
  - split; [intros H; inversion H | intros (k & _ & H); discriminate].
  - rewrite elem_of_app, IH. split.
    + intros [H | (k & -> & H)].
      * destruct b; [|inversion H]. apply list_elem_of_singleton in H as ->.
        exists 0. split; [lia | done].
      * exists (S k). split; [lia | done].
    + intros ([|k] & -> & H); simpl in H.
      * left. injection H as ->. apply list_elem_of_singleton. lia.
      * right. exists k. split; [lia | done].
Qed.

Lemma where_true_NoDup (bs : list bool) (p : nat) : NoDup (torch.where_true p bs).
Proof.
  revert p. induction bs as [|b bs IH]; intros p; simpl; [constructor|].
  destruct b; simpl; [|apply IH].
  constructor; [|apply IH].
  rewrite where_true_spec. intros (k & ? & _). lia.
Qed.

Lemma unravel_matrix (n m p : nat) :
  torch.unravel [n; m] p = [p / m; p mod m].
Proof.
  cbn [torch.unravel prod foldr].
  rewrite Nat.mul_1_r, Nat.div_1_r. reflexivity.
Qed.

Lemma matrix_position (n m i j : nat) :
  j < m → (i * m + j) / m = i ∧ (i * m + j) mod m = j.
Proof.
  intros Hj. split.
  - rewrite Nat.div_add_l by lia. rewrite Nat.div_small by lia. lia.
  - rewrite Nat.add_comm, Nat.Div0.mod_add. apply Nat.mod_small, Hj.
Qed.

(** ** The lower triangle and the cutoff mask *)

Lemma float_zero_not_positive : PrimFloat.ltb 0%float 0%float = false.
Proof. reflexivity. Qed.

Lemma as_floats_tril (n m : nat) (s : storage) (p : nat) :
  as_floats (torch.tril_storage n m s) !! p
  = (fun x => if torch.tril_keep n m p then x else 0%float) <$> as_floats s !! p.
Proof.
  destruct s as [xs|zs|bs]; simpl.
  - apply list_lookup_imap.
  - rewrite !list_lookup_fmap, list_lookup_imap.
    destruct (zs !! p); simpl; [|done]. by destruct (torch.tril_keep n m p).
  - rewrite !list_lookup_fmap, list_lookup_imap.
    destruct (bs !! p); simpl; [|done]. by destruct (torch.tril_keep n m p).
Qed.

Lemma cutoff_mask_lookup (ys : list float) (c : float) (p : nat) :
  zip_with andb ((fun x => PrimFloat.ltb 0%float x) <$> ys)
                ((fun x => PrimFloat.ltb x c) <$> ys) !! p = Some true
  ↔ ∃ y, ys !! p = Some y ∧ PrimFloat.ltb 0%float y = true ∧ PrimFloat.ltb y c = true.
Proof.
  rewrite lookup_zip_with, !list_lookup_fmap.
  destruct (ys !! p) as [y|]; simpl.
  - split.
    + intros [= H]. apply andb_true_iff in H as [? ?]. eauto.
    + intros (y' & [= <-] & H1 & H2). by rewrite H1, H2.
  - split; [done | intros (? & ? & _); done].
Qed.

Lemma ravel_matrix (n m i j : nat) : torch.ravel [n; m] [i; j] = i * m + j.
Proof. cbn [torch.ravel prod foldr]. lia. Qed.

Lemma length_as_floats (s : storage) : length (as_floats s) = numel s.
Proof. destruct s; simpl; by rewrite ?length_fmap. Qed.

(** The flat positions that [edges_from_dist] keeps. *)
Lemma cutoff_positions (n m : nat) (s : storage) (c : float) (p : nat) :
  let L := torch.tril_storage n m s in
  zip_with andb ((fun x => PrimFloat.ltb 0%float x) <$> as_floats L)
                ((fun x => PrimFloat.ltb x c) <$> as_floats L) !! p = Some true
  ↔ torch.tril_keep n m p = true
    ∧ ∃ x, as_floats s !! p = Some x
           ∧ PrimFloat.ltb 0%float x = true ∧ PrimFloat.ltb x c = true.
Proof.
  intros L. rewrite cutoff_mask_lookup. unfold L. split.
  - intros (y & Hy & H0 & Hc). rewrite as_floats_tril in Hy.
    destruct (as_floats s !! p) as [x|]; [|done]. simpl in Hy.
    destruct (torch.tril_keep n m p); injection Hy as <-.
    + eauto.
    + by rewrite float_zero_not_positive in H0.
  - intros (Hk & x & Hx & H0 & Hc). exists x.
    by rewrite as_floats_tril, Hx; simpl; rewrite Hk.
Qed.

Lemma edges_from_dist_unfold (n m : nat) (s : storage) (c : float) :
  let L := torch.tril_storage n m s in
  edges_from_dist (VTensor (Tensor n [m] s)) c
  = Ok (torch.unravel [n; m] <$>
        torch.where_true 0
          (zip_with andb ((fun x => PrimFloat.ltb 0%float x) <$> as_floats L)
                         ((fun x => PrimFloat.ltb x c) <$> as_floats L))).
Proof. reflexivity. Qed.

Lemma entry_matrix (n m : nat) (s : storage) (i j : nat) :
  entry (Tensor n [m] s) [i; j] = as_floats s !! (i * m + j).
Proof.
  unfold entry, shape. simpl dim0. simpl dims. simpl elems.
  by rewrite ravel_matrix.
Qed.

(** The characterisation of the edge list of a matrix, shared by the
    properties below. *)
Lemma edges_from_dist_matrix (n m : nat) (s : storage) (c : float) :
  numel s = n * m →
  ∃ E, edges_from_dist (VTensor (Tensor n [m] s)) c = Ok E
       ∧ NoDup E
       ∧ (∀ e, e ∈ E → ∃ i j, e = [i; j])
       ∧ ∀ i j, [i; j] ∈ E
                ↔ i < n ∧ j < m ∧ j ≤ i ∧ within_cutoff (Tensor n [m] s) c i j.
Proof.
  intros Hlen. eexists. split; [apply edges_from_dist_unfold|].
  set (W := torch.where_true 0 _).
  assert (HW : ∀ p, p ∈ W ↔ torch.tril_keep n m p = true
            ∧ ∃ x, as_floats s !! p = Some x
                   ∧ PrimFloat.ltb 0%float x = true ∧ PrimFloat.ltb x c = true).
  { intros p. unfold W. rewrite where_true_spec. rewrite <- cutoff_positions.
    split; [intros (k & -> & H); exact H | intros H; exists p; split; [lia | exact H]]. }
  assert (Hlt : ∀ p, p ∈ W → p < n * m).
  { intros p (_ & x & Hx & _)%HW. apply lookup_lt_Some in Hx.
    by rewrite length_as_floats, Hlen in Hx. }
  split; [|split].
  - apply NoDup_fmap_2_strong; [|apply where_true_NoDup].
    intros p q Hp Hq. rewrite !unravel_matrix. intros [= Hd Hm].
    rewrite (Nat.div_mod_eq p m), (Nat.div_mod_eq q m). congruence.
  - intros e (p & -> & _)%list_elem_of_fmap. rewrite unravel_matrix. eauto.
  - intros i j. rewrite list_elem_of_fmap. unfold within_cutoff.
    rewrite entry_matrix. split.
    + intros (p & Hij & Hp). rewrite unravel_matrix in Hij. injection Hij as -> ->.
      pose proof (Hlt p Hp) as Hpm. apply HW in Hp as (Hk & Hx).
      assert (0 < m) by (destruct m; lia).
      assert (p / m < n) by (apply Nat.Div0.div_lt_upper_bound; lia).
      assert (p mod m < m) by (apply Nat.mod_upper_bound; lia).
      unfold torch.tril_keep in Hk. apply Nat.leb_le in Hk.
      rewrite (Nat.mod_small (p / m) n) in Hk by lia.
      repeat split; [done..|].
      replace (p / m * m + p mod m) with p; [done|].
      rewrite (Nat.div_mod_eq p m) at 1. lia.
    + intros (Hi & Hj & Hji & Hx).
      destruct (matrix_position n m i j Hj) as [Hd Hm].
      exists (i * m + j). split; [by rewrite unravel_matrix, Hd, Hm|].
      apply HW. split; [|done].
      unfold torch.tril_keep. apply Nat.leb_le.
      rewrite Hd, Hm, Nat.mod_small by lia. done.
Qed.


(** ** C1: the edge list of a distance matrix *)




(** ** C5: the validator *)

Lemma _check_for_type_spec (d : gmap string value) (p : value → bool) :
  _check_for_type d p = true ↔ ∃ k v, d !! k = Some v ∧ p v = true.
Proof.
  unfold _check_for_type. rewrite existsb_exists. split.
  - intros ([k v] & Hin & Hp). exists k, v. split; [|done].
    by apply elem_of_map_to_list, list_elem_of_In.
  - intros (k & v & Hkv & Hp). exists (k, v). split; [|done].
    by apply list_elem_of_In, elem_of_map_to_list.
Qed.

Lemma dict_contains_spec (d : gmap string value) (key : string) :
  dict_contains d key = false ↔ d !! key = None.
Proof. unfold dict_contains. destruct (d !! key); split; done. Qed.

Lemma prologue_unfold (self : PointCloudToGraphTransform) (w : world) :
  prologue self w =
    if _check_for_type (data w) is_graph
    then Raise (AssertionError "Data structure already contains a graph: transform shouldn't be required.")
    else if negb (dict_contains (data w) "pos")
    then Raise (AssertionError "No atomic positions 'pos' key present in data sample.")
    else if negb (dict_contains (data w) "atomic_numbers" || dict_contains (data w) "pc_features")
    then Raise (AssertionError "Neither 'atomic_numbers' nor 'pc_features' keys were present in data sample.")
    else Ok (tt, w).
Proof.
  unfold prologue, mbind, M_bind, get_data, assert_, lift, super_prologue, mret, M_ret.
  destruct (_check_for_type (data w) is_graph); [done|]. simpl.
  destruct (dict_contains (data w) "pos"); [|done]. simpl.
  destruct (dict_contains (data w) "atomic_numbers"),
           (dict_contains (data w) "pc_features"); done.
Qed.

Lemma prologue_raises_iff_aux (self : PointCloudToGraphTransform) (w : world) :
  ((∃ k v, data w !! k = Some v ∧ is_graph v = true)
   ∨ data w !! "pos" = None
   ∨ (data w !! "atomic_numbers" = None ∧ data w !! "pc_features" = None)
   → is_ok (prologue self w) = false)
  ∧ (is_ok (prologue self w) = false
     → (∃ k v, data w !! k = Some v ∧ is_graph v = true)
       ∨ data w !! "pos" = None
       ∨ (data w !! "atomic_numbers" = None ∧ data w !! "pc_features" = None)).
Proof.
  rewrite prologue_unfold, <- _check_for_type_spec, <- !dict_contains_spec.
  destruct (_check_for_type (data w) is_graph); simpl; [by auto|].
  destruct (dict_contains (data w) "pos"); simpl; [|by auto].
  destruct (dict_contains (data w) "atomic_numbers"),
           (dict_contains (data w) "pc_features"); simpl;
    (split; [intros [?|[?|[? ?]]]; done | done || auto]).
Qed.

(** C5: the validator raises, and then an assertion error, if and only if
    the sample already contains a graph-typed value, or the key 'pos' is
    absent, or neither 'atomic_numbers' nor 'pc_features' is present; when it
    returns normally the sample (and the rest of the state) is as it was. *)
Theorem prologue_raises_iff (self : PointCloudToGraphTransform) (w : world) :
  (is_ok (prologue self w) = false
   ↔ (∃ k v, data w !! k = Some v ∧ is_graph v = true)
     ∨ data w !! "pos" = None
     ∨ (data w !! "atomic_numbers" = None ∧ data w !! "pc_features" = None))
  ∧ (∀ e, prologue self w = Raise e → ∃ msg, e = AssertionError msg)
  ∧ (∀ r w', prologue self w = Ok (r, w') → w' = w).
Proof.
  rewrite prologue_unfold, <- _check_for_type_spec, <- !dict_contains_spec.
  destruct (_check_for_type (data w) is_graph); simpl.
  { split_and!; [split; auto | intros e [= <-]; eauto | done]. }
  destruct (dict_contains (data w) "pos"); simpl.
  2:{ split_and!; [split; auto | intros e [= <-]; eauto | done]. }
  destruct (dict_contains (data w) "atomic_numbers"),
           (dict_contains (data w) "pc_features"); simpl;
    (split_and!;
     [ split; [done || auto | intros [?|[?|[? ?]]]; done]
     | intros e [= <-] || done; eauto
     | by intros r w' [= _ <-] || done ]).
Qed.

(** ** C6: the atom-type resolver *)

Section AtomTypes.

Variable retrieve_pointcloud_node_types : value → result (tensor * tensor).

(** C6: [get_atom_types] returns the value under 'atomic_numbers' as it is
    when that key is present; otherwise, when 'pc_features' is present, it
    derives the source and destination types from the feature block,
    raises an assertion error unless the number of source types is the
    number of positions, and returns the source types; with neither key it
    raises a KeyError. *)
Theorem get_atom_types_cases (d : gmap string value) :
  (∀ v, d !! "atomic_numbers" = Some v → get_atom_types retrieve_pointcloud_node_types d = Ok v)
  ∧ (∀ f src dst pos,
       d !! "atomic_numbers" = None → d !! "pc_features" = Some f →
       retrieve_pointcloud_node_types f = Ok (src, dst) →
       d !! "pos" = Some (VTensor pos) →
       (dim0 src = dim0 pos → get_atom_types retrieve_pointcloud_node_types d = Ok (VTensor src))
       ∧ (dim0 src ≠ dim0 pos → ∃ msg, get_atom_types retrieve_pointcloud_node_types d = Raise (AssertionError msg)))
  ∧ (d !! "atomic_numbers" = None → d !! "pc_features" = None →
     ∃ msg, get_atom_types retrieve_pointcloud_node_types d = Raise (KeyError msg)).
Proof.
  unfold get_atom_types, dict_contains, dict_getitem. split_and!.
  - intros v ->. done.
  - intros f src dst pos -> -> Hr Hpos. simpl. rewrite Hr. simpl.
    rewrite Hpos. simpl. split; intros ?; destruct (decide _); try done. eauto.
  - intros -> ->. eauto.
Qed.

End AtomTypes.

(** ** C7: the mask applier *)

Lemma getitem_dim0 (a p m a' p' : tensor) :
  torch.getitem a m = Ok a' → torch.getitem p m = Ok p' → dim0 a' = dim0 p'.
Proof.
  unfold torch.getitem. destruct (elems m) as [xs|ix|bs]; [done| |].
  - destruct (mapM _ ix), (mapM _ ix); try done. by intros [= <-] [= <-].
  - do 2 destruct (decide _); try done. by intros [= <-] [= <-].
Qed.

Lemma _apply_mask_inv (an pos : value) (d : gmap string value) (a' p' : tensor) :
  _apply_mask an pos d = Ok (a', p') →
  ∃ a p m, an = VTensor a ∧ pos = VTensor p
    ∧ match d !! "src_mask" with
      | Some v => v = VTensor m
      | None => m = torch.gt_scalar a 0%float
      end
    ∧ torch.getitem a m = Ok a' ∧ torch.getitem p m = Ok p'.
Proof.
  unfold _apply_mask. intros H.
  destruct an as [a| | |]; try (destruct (d !! "src_mask"); discriminate H).
  assert (∃ m, match d !! "src_mask" with
               | Some v => v = VTensor m
               | None => m = torch.gt_scalar a 0%float
               end
               ∧ (a1 ← torch.getitem a m; p ← as_tensor pos;
                  p1 ← torch.getitem p m; Ok (a1, p1)) = Ok (a', p'))
    as (m & Hm & H').
  { destruct (d !! "src_mask") as [[m| | |]|]; try discriminate H; eauto. }
  clear H. destruct (torch.getitem a m) as [a1|] eqn:Ha; [|done]. simpl in H'.
  destruct pos as [p| | |]; try done. simpl in H'.
  destruct (torch.getitem p m) as [p1|] eqn:Hp; [|done].
  injection H' as <- <-. exists a, p, m. done.
Qed.


(** ** The attribute copier as a loop *)

Lemma for_each_app {A} (l1 l2 : list A) (body : A → M unit) (w : world) :
  for_each (l1 ++ l2) body w = (for_each l1 body;; for_each l2 body) w.
Proof.
  revert w. induction l1 as [|x l1 IH]; intros w; simpl.
  - reflexivity.
  - unfold mbind, M_bind in *. destruct (body x w) as [[[] w']|]; [apply IH | done].
Qed.

Lemma world_eta (w : world) : World (data w) (heap w) (warnings w) = w.
Proof. by destruct w. Qed.

Lemma present_items_cons (d : gmap string value) (k : string) (keys : list string) :
  present_items d (k :: keys)
  = match d !! k with
    | Some v => (k, v) :: present_items d keys
    | None => present_items d keys
    end.
Proof. unfold present_items. simpl. by destruct (d !! k). Qed.

Lemma absent_keys_cons (d : gmap string value) (k : string) (keys : list string) :
  absent_keys d (k :: keys)
  = match d !! k with
    | Some v => absent_keys d keys
    | None => k :: absent_keys d keys
    end.
Proof.
  unfold absent_keys. rewrite filter_cons.
  destruct (d !! k); by destruct (decide _).
Qed.

(** One loop serves the four copiers: every key the sample has is assigned,
    in order; every key it lacks gives a warning; the sample is untouched. *)
Lemma copy_loop (set : AbstractGraph → string → value → result AbstractGraph)
    (mk : string → warning) (keys : list string) (l : loc) (g : AbstractGraph) (w : world) :
  heap w !! l = Some g →
  for_each keys (fun key =>
    d ← get_data;
    match d !! key with
    | Some v => mutate (VGraph l) (fun g => set g key v)
    | None => warn (mk key)
    end) w
  = match assign_all set (present_items (data w) keys) g with
    | Ok g' => Ok (tt, World (data w) (<[l:=g']> (heap w))
                         (warnings w ++ (mk <$> absent_keys (data w) keys)))
    | Raise e => Raise e
    end.
Proof.
  revert g w. induction keys as [|k keys IH]; intros g w Hl.
  - simpl. rewrite list_insert_id by done. rewrite app_nil_r.
    by rewrite world_eta.
  - rewrite present_items_cons, absent_keys_cons.
    cbn [for_each]. unfold mbind at 1, M_bind at 1.
    unfold mbind at 1, M_bind at 1, get_data at 1.
    destruct (data w !! k) as [v|] eqn:Hk.
    + unfold mutate at 1. rewrite Hl. cbn [assign_all].
      destruct (set g k v) as [g'|e]; [|done]. simpl.
      rewrite (IH g'); simpl.
      2:{ apply list_lookup_insert_eq. by eapply lookup_lt_Some. }
      destruct (assign_all _ _ g'); [|done].
      by rewrite list_insert_insert_eq.
    + unfold warn at 1. rewrite (IH g); simpl; [|done].
      destruct (assign_all _ _ g); [|done].
      by rewrite <- app_assoc.
Qed.

Lemma copy_node_keys_loop (self : PointCloudToGraphTransform) (l : loc)
    (g : AbstractGraph) (w : world) :
  heap w !! l = Some g →
  copy_node_keys self (VGraph l) w
  = match assign_all (node_setter self) (present_items (data w) (node_keys self)) g with
    | Ok g' => Ok (tt, World (data w) (<[l:=g']> (heap w))
                         (warnings w ++ (MissingNodeData <$> absent_keys (data w) (node_keys self))))
    | Raise e => Raise e
    end.
Proof.
  intros Hl. unfold copy_node_keys, node_setter.
  destruct (decide (backend self = "dgl")); by apply copy_loop.
Qed.

Lemma copy_edge_keys_loop (self : PointCloudToGraphTransform) (l : loc)
    (g : AbstractGraph) (w : world) (keys : list string) :
  heap w !! l = Some g →
  edge_keys self = Some keys →
  copy_edge_keys self (VGraph l) w
  = match assign_all (edge_setter self) (present_items (data w) keys) g with
    | Ok g' => Ok (tt, World (data w) (<[l:=g']> (heap w))
                         (warnings w ++ (MissingEdgeData <$> absent_keys (data w) keys)))
    | Raise e => Raise e
    end.
Proof.
  intros Hl Hk. unfold copy_edge_keys, edge_setter, _copy_edge_keys_dgl, _copy_edge_keys_pyg.
  rewrite Hk. destruct keys as [|k keys].
  - simpl. rewrite list_insert_id by done. rewrite app_nil_r, world_eta.
    by destruct (decide _).
  - destruct (decide (backend self = "dgl")).
    + by apply (copy_loop dgl.set_edata MissingEdgeData (k :: keys)).
    + by apply (copy_loop pyg.setattr MissingEdgeData (k :: keys)).
Qed.

Lemma copy_edge_keys_unset (self : PointCloudToGraphTransform) (graph : value) (w : world) :
  edge_keys self = None ∨ edge_keys self = Some [] →
  copy_edge_keys self graph w = Ok (tt, w).
Proof.
  unfold copy_edge_keys, _copy_edge_keys_dgl, _copy_edge_keys_pyg.
  intros [-> | ->]; by destruct (decide _).
Qed.

Lemma present_items_lookup (d : gmap string value) (keys : list string) (k : string) (v : value) :
  (k, v) ∈ present_items d keys ↔ k ∈ keys ∧ d !! k = Some v.
Proof.
  unfold present_items. rewrite list_elem_of_omap. split.
  - intros (k' & Hin & H). destruct (d !! k') eqn:E; simpl in H; [|done].
    injection H as -> ->. done.
  - intros (Hin & H). exists k. by rewrite H.
Qed.

Lemma absent_keys_lookup (d : gmap string value) (keys : list string) (k : string) :
  k ∈ absent_keys d keys ↔ k ∈ keys ∧ d !! k = None.
Proof. unfold absent_keys. rewrite list_elem_of_filter. tauto. Qed.

Lemma assign_all_pyg (items : list (string * value)) (attrs : gmap string value) :
  assign_all pyg.setattr items (PyGGraph attrs)
  = Ok (PyGGraph (foldl (fun a kv => <[kv.1:=kv.2]> a) attrs items)).
Proof.
  revert attrs. induction items as [|[k v] items IH]; intros attrs; [done|].
  simpl. apply IH.
Qed.

Lemma foldl_insert_other (items : list (string * value)) (attrs : gmap string value) (k : string) :
  k ∉ items.*1 →
  foldl (fun a kv => <[kv.1:=kv.2]> a) attrs items !! k = attrs !! k.
Proof.
  revert attrs. induction items as [|[k' v'] items IH]; intros attrs Hk; [done|].
  simpl in *. apply not_elem_of_cons in Hk as [Hne Hk].
  rewrite IH by done. by rewrite lookup_insert_ne.
Qed.

Lemma foldl_insert_same (items : list (string * value)) (attrs : gmap string value)
    (k : string) (v : value) :
  (∀ v', (k, v') ∈ items → v' = v) →
  attrs !! k = Some v ∨ k ∈ items.*1 →
  foldl (fun a kv => <[kv.1:=kv.2]> a) attrs items !! k = Some v.
Proof.
  revert attrs. induction items as [|[k' v'] items IH]; intros attrs Hv Hk.
  - simpl in *. destruct Hk as [?|Hk]; [done | inversion Hk].
  - simpl. apply IH.
    + intros v'' Hin. apply Hv. by right.
    + destruct (decide (k' = k)) as [->|Hne].
      * left. rewrite lookup_insert_eq. f_equal. apply Hv. by left.
      * rewrite lookup_insert_ne by done.
        destruct Hk as [?|Hk]; [by left|]. right.
        simpl in Hk. apply elem_of_cons in Hk as [?|?]; [congruence | done].
Qed.

(** ** C9: the attribute copier *)

(** C9: on a graph object [g], the node-key copier assigns, in order, the
    value of every configured key the sample has, and for every configured
    key the sample lacks it only appends one warning: the key is skipped and
    the loop goes on.  It leaves the sample as it is.  With the PyG backend
    it always completes.  The edge-key copier does the same for a non-empty
    configured list, and with an unset or empty list it changes nothing and
    warns of nothing. *)
Theorem copy_keys_missing (self : PointCloudToGraphTransform) (l : loc)
    (g : AbstractGraph) (w : world) :
  heap w !! l = Some g →
  (copy_node_keys self (VGraph l) w
   = match assign_all (node_setter self) (present_items (data w) (node_keys self)) g with
     | Ok g' => Ok (tt, World (data w) (<[l:=g']> (heap w))
                          (warnings w ++ (MissingNodeData <$> absent_keys (data w) (node_keys self))))
     | Raise e => Raise e
     end)
  ∧ (∀ k, k ∈ absent_keys (data w) (node_keys self) ↔ k ∈ node_keys self ∧ data w !! k = None)
  ∧ (∀ k v, (k, v) ∈ present_items (data w) (node_keys self)
            ↔ k ∈ node_keys self ∧ data w !! k = Some v)
  ∧ (∀ attrs, backend self ≠ "dgl" → g = PyGGraph attrs →
       is_ok (copy_node_keys self (VGraph l) w) = true)
  ∧ (edge_keys self = None ∨ edge_keys self = Some [] →
       copy_edge_keys self (VGraph l) w = Ok (tt, w))
  ∧ (∀ keys, edge_keys self = Some keys →
       copy_edge_keys self (VGraph l) w
       = match assign_all (edge_setter self) (present_items (data w) keys) g with
         | Ok g' => Ok (tt, World (data w) (<[l:=g']> (heap w))
                              (warnings w ++ (MissingEdgeData <$> absent_keys (data w) keys)))
         | Raise e => Raise e
         end).
Proof.
  intros Hl. split_and!.
  - by apply copy_node_keys_loop.
  - apply absent_keys_lookup.
  - apply present_items_lookup.
  - intros attrs Hb ->. rewrite (copy_node_keys_loop _ _ _ _ Hl).
    unfold node_setter. rewrite decide_False by done.
    by rewrite assign_all_pyg.
  - apply copy_edge_keys_unset.
  - intros keys Hk. by apply copy_edge_keys_loop.
Qed.

(** ** The conversion, stage by stage *)

Ltac run_monad :=
  unfold mbind, M_bind, result_bind, lift, mret, M_ret, result_ret, get_data in *;
  cbn beta iota.

Section Conversion.

Variable cdist : tensor → tensor → result tensor.
Variable retrieve : value → result (tensor * tensor).

Lemma convert_unfold (self : PointCloudToGraphTransform) (w : world) :
  convert cdist retrieve self w
  = match masked_inputs retrieve (data w) with
    | Raise e => Raise e
    | Ok (a, p) =>
        match derived_edges cdist self (data w) p with
        | Raise e => Raise e
        | Ok adj_list =>
            match materialize self adj_list a p with
            | Raise e => Raise e
            | Ok g =>
                Ok (tt, World (<["graph":=VGraph (length (heap w))]> (data w))
                              (heap w ++ [g]) (warnings w))
            end
        end
    end.
Proof.
  unfold convert, materialize, masked_inputs, derived_edges.
  destruct (decide (backend self = "dgl")).
  - unfold _convert_dgl, dgl_materialize. run_monad.
    destruct (get_atom_types retrieve (data w)) as [an|]; [|done].
    destruct (dict_getitem (data w) "pos") as [pv|]; [|done].
    destruct (_apply_mask an pv (data w)) as [[a p]|]; [|done].
    destruct (distance_matrix_of cdist (data w) p) as [dm|]; [|done].
    destruct (edges_from_dist dm (cutoff_dist self)) as [adj|]; [|done].
    destruct (dgl.graph adj (dim0 a)) as [g|]; [|done].
    destruct (dgl.set_ndata g "atomic_numbers" (VTensor a)) as [g1|]; [|done].
    destruct (dgl.set_ndata g1 "pos" (VTensor p)) as [g2|]; done.
  - unfold _convert_pyg, pyg_materialize, pyg_edge_index. run_monad.
    destruct (get_atom_types retrieve (data w)) as [an|]; [|done].
    destruct (dict_getitem (data w) "pos") as [pv|]; [|done].
    destruct (_apply_mask an pv (data w)) as [[a p]|]; [|done].
    destruct (distance_matrix_of cdist (data w) p) as [dm|]; [|done].
    destruct (edges_from_dist dm (cutoff_dist self)) as [adj|]; [|done].
    destruct (torch.LongTensor adj) as [ei|]; [|done].
    destruct (torch.size ei 0) as [s0|]; [|done].
    destruct (negb (s0 =? 2)); [|done].
    destruct (torch.size ei 1) as [s1|]; done.
Qed.

End Conversion.

(** ** C2: a sample without edges *)

Lemma masked_inputs_dim0 (retrieve : value → result (tensor * tensor))
    (d : gmap string value) (a p : tensor) :
  masked_inputs retrieve d = Ok (a, p) → dim0 p = dim0 a.
Proof.
  unfold masked_inputs. run_monad.
  destruct (get_atom_types retrieve d) as [an|]; [|done].
  destruct (dict_getitem d "pos") as [pv|]; [|done].
  intros H. apply _apply_mask_inv in H as (a0 & p0 & m & _ & _ & _ & Ha & Hp).
  symmetry. eapply getitem_dim0; eauto.
Qed.

Lemma dgl_materialize_no_edges (a p : tensor) :
  dim0 p = dim0 a →
  dgl_materialize [] a p
  = Ok (DGLGraph (dim0 a) [] (<["pos":=p]> (<["atomic_numbers":=a]> ∅)) ∅).
Proof.
  intros Hp. unfold dgl_materialize, dgl.graph, dgl.set_ndata, dgl.frame_check.
  run_monad. simpl. rewrite decide_True by done. rewrite decide_True by done. done.
Qed.

Lemma pyg_materialize_no_edges (a p : tensor) :
  pyg_materialize [] a p = Raise IndexError.
Proof. reflexivity. Qed.

(** C2, what the code does: for every sample whose derived edge list is
    empty, the DGL materializer completes and stores under 'graph' a new
    graph with one node per filtered atom, no edge, and the filtered labels
    and positions as node attributes; the PyG materializer raises an
    IndexError, because [torch.LongTensor([])] has one dimension and the
    orientation test asks for the size of a second one. *)
Theorem convert_empty_edge_list (cdist : tensor → tensor → result tensor)
    (retrieve : value → result (tensor * tensor))
    (self : PointCloudToGraphTransform) (w : world) (a p : tensor) :
  masked_inputs retrieve (data w) = Ok (a, p) →
  derived_edges cdist self (data w) p = Ok [] →
  (backend self = "dgl" →
     convert cdist retrieve self w
     = Ok (tt, World (<["graph":=VGraph (length (heap w))]> (data w))
                     (heap w ++ [DGLGraph (dim0 a) []
                                   (<["pos":=p]> (<["atomic_numbers":=a]> ∅)) ∅])
                     (warnings w)))
  ∧ (backend self ≠ "dgl" → convert cdist retrieve self w = Raise IndexError).
Proof.
  intros Hm He. rewrite convert_unfold, Hm, He. unfold materialize. split; intros Hb.
  - rewrite decide_True by done.
    rewrite dgl_materialize_no_edges; [done|]. by eapply masked_inputs_dim0.
  - rewrite decide_False by done. by rewrite pyg_materialize_no_edges.
Qed.

Lemma convert_empty_edge_list_witness :
  masked_inputs no_pc_features single_atom
  = Ok (Tensor 1 [] (Longs [1%Z]), Tensor 1 [3] (Floats [0; 0; 0]%float))
  ∧ derived_edges cdist_reference (example_transform "pyg") single_atom
      (Tensor 1 [3] (Floats [0; 0; 0]%float)) = Ok []
  ∧ is_ok (convert cdist_reference no_pc_features (example_transform "dgl")
             (World single_atom [] [])) = true
  ∧ convert cdist_reference no_pc_features (example_transform "pyg")
      (World single_atom [] []) = Raise IndexError.
Proof.
  assert (Hm : masked_inputs no_pc_features (data (World single_atom [] []))
               = Ok (Tensor 1 [] (Longs [1%Z]), Tensor 1 [3] (Floats [0; 0; 0]%float)))
    by (vm_compute; reflexivity).
  assert (He : ∀ b, derived_edges cdist_reference (example_transform b)
                      (data (World single_atom [] []))
                      (Tensor 1 [3] (Floats [0; 0; 0]%float)) = Ok [])
    by (intros b; vm_compute; reflexivity).
  split; [exact Hm|]. split; [exact (He "pyg")|]. split.
  - destruct (convert_empty_edge_list cdist_reference no_pc_features
                (example_transform "dgl") _ _ _ Hm (He "dgl")) as [H _].
    rewrite H; reflexivity.
  - destruct (convert_empty_edge_list cdist_reference no_pc_features
                (example_transform "pyg") _ _ _ Hm (He "pyg")) as [_ H].
    apply H. discriminate.
Defined.

(** ** The finalizer, stage by stage *)

Lemma copy_edge_keys_run (self : PointCloudToGraphTransform) (l : loc)
    (g : AbstractGraph) (w : world) :
  heap w !! l = Some g →
  let keys := default [] (edge_keys self) in
  copy_edge_keys self (VGraph l) w
  = match assign_all (edge_setter self) (present_items (data w) keys) g with
    | Ok g' => Ok (tt, World (data w) (<[l:=g']> (heap w))
                         (warnings w ++ (MissingEdgeData <$> absent_keys (data w) keys)))
    | Raise e => Raise e
    end.
Proof.
  intros Hl. destruct (edge_keys self) as [keys|] eqn:Hk; simpl.
  - by apply copy_edge_keys_loop.
  - rewrite copy_edge_keys_unset by auto.
    by rewrite list_insert_id, app_nil_r, world_eta.
Qed.

Lemma delete_loop (keys : list string) (w : world) :
  for_each keys try_delitem w
  = Ok (tt, World (without_keys (data w) keys) (heap w) (warnings w)).
Proof.
  revert w. induction keys as [|k keys IH]; intros w.
  - simpl. by rewrite world_eta.
  - cbn [for_each]. unfold mbind at 1, M_bind at 1, try_delitem at 1, dict_delitem at 1.
    destruct (data w !! k) eqn:Hk.
    + rewrite IH. done.
    + rewrite IH. unfold without_keys. simpl. by rewrite delete_id.
Qed.

Lemma without_keys_lookup (d : gmap string value) (keys : list string) (k : string) :
  without_keys d keys !! k = if decide (k ∈ keys) then None else d !! k.
Proof.
  unfold without_keys. revert d. induction keys as [|k' keys IH]; intros d; cbn [foldl].
  - case_decide as H; [by apply elem_of_nil in H | done].
  - rewrite IH.
    destruct (decide (k ∈ keys)) as [Hin|Hin], (decide (k ∈ k' :: keys)) as [Hin'|Hin'];
      try done.
    + exfalso. apply Hin'. by right.
    + apply lookup_delete_None. apply elem_of_cons in Hin' as [->|?]; [by left | done].
    + rewrite lookup_delete_ne; [done|]. intros ->. apply Hin'. by left.
Qed.

Lemma graph_not_redundant : "graph" ∉ redundant_keys.
Proof.
  intros H. unfold redundant_keys in H.
  repeat (apply elem_of_cons in H as [H|H]; [discriminate H|]).
  by apply elem_of_nil in H.
Qed.

Lemma epilogue_unfold (self : PointCloudToGraphTransform) (l : loc)
    (g : AbstractGraph) (w : world) :
  data w !! "graph" = Some (VGraph l) →
  heap w !! l = Some g →
  epilogue self w
  = match copy_attributes self (data w) g with
    | Raise e => Raise e
    | Ok g' =>
        let d' := without_keys (data w) redundant_keys in
        let h' := <[l:=g']> (heap w) in
        let ws := (warnings w
                   ++ (MissingNodeData <$> absent_keys (data w) (node_keys self))
                   ++ (MissingEdgeData <$> absent_keys (data w) (default [] (edge_keys self))))%list in
        if decide (backend self = "dgl") then
          match dgl.to_bidirected g' with
          | Ok g'' => Ok (tt, World (<["graph":=VGraph (length h')]> d') (h' ++ [g'']) ws)
          | Raise e => Raise e
          end
        else Ok (tt, World d' h' ws)
    end.
Proof.
  intros Hg Hl. unfold epilogue, copy_attributes.
  unfold mbind at 1, M_bind at 1, get_data at 1.
  unfold mbind at 1, M_bind at 1, lift at 1, dict_getitem at 1. rewrite Hg.
  unfold mbind at 1, M_bind at 1. rewrite (copy_node_keys_loop _ _ _ _ Hl).
  destruct (assign_all (node_setter self) _ g) as [g1|]; [|done].
  cbn [mbind result_bind].
  unfold mbind at 1, M_bind at 1.
  rewrite (copy_edge_keys_run self l g1); cbn [data heap warnings].
  2:{ apply list_lookup_insert_eq. by eapply lookup_lt_Some. }
  destruct (assign_all (edge_setter self) _ g1) as [g2|]; [|done].
  unfold mbind at 1, M_bind at 1. rewrite delete_loop. cbn [data heap warnings].
  rewrite list_insert_insert_eq, <- app_assoc.
  unfold mbind at 1, M_bind at 1, super_epilogue.
  destruct (decide (backend self = "dgl")).
  - run_monad. unfold dict_getitem. cbn [data heap warnings].
    rewrite without_keys_lookup, decide_False, Hg by apply graph_not_redundant.
    unfold deref. cbn [data heap warnings].
    rewrite list_lookup_insert_eq by (by eapply lookup_lt_Some).
    destruct (dgl.to_bidirected g2); done.
  - done.
Qed.

(** ** The whole transform, stage by stage *)

Lemma prologue_ok (self : PointCloudToGraphTransform) (w : world) :
  prologue self w = (if is_ok (prologue self w) then Ok (tt, w) else prologue self w).
Proof.
  rewrite prologue_unfold.
  repeat (match goal with |- context [if ?b then _ else _] => destruct b end; simpl; try done).
Qed.

Lemma insert_last (h : list AbstractGraph) (g g' : AbstractGraph) :
  <[length h:=g']> (h ++ [g]) = h ++ [g'].
Proof.
  rewrite insert_app_r_alt by lia. by rewrite Nat.sub_diag.
Qed.

Section Call.

Variable cdist : tensor → tensor → result tensor.
Variable retrieve : value → result (tensor * tensor).

Lemma call_unfold (self : PointCloudToGraphTransform) (w : world) :
  call cdist retrieve self w
  = if is_ok (prologue self w) then
      match masked_inputs retrieve (data w) with
      | Raise e => Raise e
      | Ok (a, p) =>
      match derived_edges cdist self (data w) p with
      | Raise e => Raise e
      | Ok adj_list =>
      match materialize self adj_list a p with
      | Raise e => Raise e
      | Ok g =>
      let l := length (heap w) in
      let d := <["graph":=VGraph l]> (data w) in
      match copy_attributes self d g with
      | Raise e => Raise e
      | Ok g' =>
          let d' := without_keys d redundant_keys in
          let ws := (warnings w
                     ++ (MissingNodeData <$> absent_keys d (node_keys self))
                     ++ (MissingEdgeData <$> absent_keys d (default [] (edge_keys self))))%list in
          if decide (backend self = "dgl") then
            match dgl.to_bidirected g' with
            | Ok g'' => Ok (tt, World (<["graph":=VGraph (S l)]> d') (heap w ++ [g'; g'']) ws)
            | Raise e => Raise e
            end
          else Ok (tt, World d' (heap w ++ [g']) ws)
      end end end end
    else match prologue self w with
         | Ok _ => Raise (AssertionError "")
         | Raise e => Raise e
         end.
Proof.
  unfold call. unfold mbind at 1, M_bind at 1.
  pose proof (prologue_ok self w) as Hp.
  destruct (prologue self w) as [[[] w0]|e]; simpl in Hp |- *; [|done].
  injection Hp as ->.
  unfold mbind at 1, M_bind at 1. rewrite convert_unfold.
  destruct (masked_inputs retrieve (data w)) as [[a p]|]; [|done].
  destruct (derived_edges cdist self (data w) p) as [adj|]; [|done].
  destruct (materialize self adj a p) as [g|]; [|done].
  rewrite (epilogue_unfold self (length (heap w)) g); cbn [data heap warnings].
  - destruct (copy_attributes self _ g) as [g'|]; [|done].
    rewrite insert_last, length_app. cbn [length]. rewrite Nat.add_1_r.
    destruct (decide (backend self = "dgl")); [|done].
    destruct (dgl.to_bidirected g'); [|done]. by rewrite <- app_assoc.
  - by rewrite lookup_insert_eq.
  - rewrite lookup_app_r by lia. by rewrite Nat.sub_diag.
Qed.

End Call.

(** ** Graph objects under the copier and the symmetrisation *)


Lemma dgl_set_ndata_inv (g g' : AbstractGraph) (k : string) (v : value) :
  dgl.set_ndata g k v = Ok g' →
  ∃ n es nd ed t, g = DGLGraph n es nd ed ∧ dgl.frame_check n v = Ok t
                  ∧ g' = DGLGraph n es (<[k:=t]> nd) ed.
Proof.
  destruct g as [n es nd ed|attrs]; [|done]. simpl. run_monad.
  destruct (dgl.frame_check n v) as [t|] eqn:Ht; [|done].
  intros [= <-]. by exists n, es, nd, ed, t.
Qed.

Lemma dgl_set_edata_inv (g g' : AbstractGraph) (k : string) (v : value) :
  dgl.set_edata g k v = Ok g' →
  ∃ n es nd ed t, g = DGLGraph n es nd ed ∧ dgl.frame_check (length es) v = Ok t
                  ∧ g' = DGLGraph n es nd (<[k:=t]> ed).
Proof.
  destruct g as [n es nd ed|attrs]; [|done]. simpl. run_monad.
  destruct (dgl.frame_check (length es) v) as [t|] eqn:Ht; [|done].
  intros [= <-]. by exists n, es, nd, ed, t.
Qed.

(** The DGL copier changes neither the nodes nor the edges, and every value
    it is given must pass the frame check. *)
Lemma assign_all_dgl_nodes (items : list (string * value)) (n : nat)
    (es : list (nat * nat)) (nd ed : gmap string tensor) (g' : AbstractGraph) :
  assign_all dgl.set_ndata items (DGLGraph n es nd ed) = Ok g' →
  (∃ nd', g' = DGLGraph n es nd' ed)
  ∧ ∀ k v, (k, v) ∈ items → is_ok (dgl.frame_check n v) = true.
Proof.
  revert nd. induction items as [|[k v] items IH]; intros nd; simpl.
  - intros [= <-]. split; [eauto | by intros k v ?%elem_of_nil].
  - run_monad. destruct (dgl.frame_check n v) as [t|] eqn:Ht; [|done].
    intros [Hg Hall]%IH. split; [done|].
    intros k' v' [[= -> ->]|?]%elem_of_cons; [by rewrite Ht | eauto].
Qed.

Lemma assign_all_dgl_edges (items : list (string * value)) (n : nat)
    (es : list (nat * nat)) (nd ed : gmap string tensor) (g' : AbstractGraph) :
  assign_all dgl.set_edata items (DGLGraph n es nd ed) = Ok g' →
  ∃ ed', g' = DGLGraph n es nd ed'.
Proof.
  revert ed. induction items as [|[k v] items IH]; intros ed; simpl.
  - intros [= <-]. eauto.
  - run_monad. destruct (dgl.frame_check (length es) v) as [t|]; [|done].
    apply IH.
Qed.

Lemma dgl_materialize_inv (adj_list : list (list nat)) (a p : tensor) (g : AbstractGraph) :
  dgl_materialize adj_list a p = Ok g →
  ∃ es, dgl.elist2tensor adj_list = Ok es
        ∧ g = DGLGraph (dim0 a) es (<["pos":=p]> (<["atomic_numbers":=a]> ∅)) ∅.
Proof.
  unfold dgl_materialize, dgl.graph. run_monad.
  destruct (dgl.elist2tensor adj_list) as [es|]; [|done].
  destruct (forallb _ es); [|done].
  unfold dgl.set_ndata, dgl.frame_check. run_monad.
  destruct (decide (dim0 a = dim0 a)); [|done].
  destruct (decide (dim0 p = dim0 a)); [|done].
  intros [= <-]. eauto.
Qed.

Lemma pyg_materialize_inv (adj_list : list (list nat)) (a p : tensor) (g : AbstractGraph) :
  pyg_materialize adj_list a p = Ok g →
  ∃ ei, pyg_edge_index adj_list = Ok ei
        ∧ g = PyGGraph (<["atomic_numbers":=VTensor a]>
                          (<["pos":=VTensor p]> (<["edge_index":=VTensor ei]> ∅))).
Proof.
  unfold pyg_materialize. run_monad.
  destruct (pyg_edge_index adj_list) as [ei|]; [|done].
  intros [= <-]. eauto.
Qed.


Section CallProperties.

Variable cdist : tensor → tensor → result tensor.
Variable retrieve : value → result (tensor * tensor).

(** What a completed call went through. *)
Lemma call_inv (self : PointCloudToGraphTransform) (w w' : world) :
  call cdist retrieve self w = Ok (tt, w') →
  is_ok (prologue self w) = true
  ∧ ∃ a p adj_list g g',
      let l := length (heap w) in
      let d := <["graph":=VGraph l]> (data w) in
      masked_inputs retrieve (data w) = Ok (a, p)
      ∧ derived_edges cdist self (data w) p = Ok adj_list
      ∧ materialize self adj_list a p = Ok g
      ∧ copy_attributes self d g = Ok g'
      ∧ ((backend self = "dgl"
          ∧ ∃ g'', dgl.to_bidirected g' = Ok g''
                   ∧ data w' = <["graph":=VGraph (S l)]> (without_keys d redundant_keys)
                   ∧ heap w' = heap w ++ [g'; g''])
         ∨ (backend self ≠ "dgl"
            ∧ data w' = without_keys d redundant_keys
            ∧ heap w' = heap w ++ [g'])).
Proof.
  rewrite call_unfold. intros H. destruct (is_ok (prologue self w)).
  2:{ by destruct (prologue self w). }
  split; [done|].
  destruct (masked_inputs retrieve (data w)) as [[a p]|] eqn:Hm; [|done].
  destruct (derived_edges cdist self (data w) p) as [adj|] eqn:He; [|done].
  destruct (materialize self adj a p) as [g|] eqn:Hg; [|done].
  cbn zeta in H.
  destruct (copy_attributes self _ g) as [g'|] eqn:Hc; [|done].
  exists a, p, adj, g, g'. cbn zeta. do 4 (split; [done|]).
  destruct (decide (backend self = "dgl")).
  - left. split; [done|]. destruct (dgl.to_bidirected g') as [g''|]; [|done].
    injection H as <-. eauto.
  - right. injection H as <-. done.
Qed.

Lemma prologue_no_graph (self : PointCloudToGraphTransform) (w : world) :
  is_ok (prologue self w) = true →
  ∀ k v, data w !! k = Some v → is_graph v = false.
Proof.
  intros Hok k v Hk. destruct (is_graph v) eqn:Hv; [|done].
  destruct (prologue_raises_iff_aux self w) as [H _].
  rewrite H in Hok; [done|]. left. eauto.
Qed.

End CallProperties.

Lemma elem_of_keys (items : list (string * value)) (k : string) :
  k ∈ items.*1 ↔ ∃ v, (k, v) ∈ items.
Proof.
  rewrite list_elem_of_fmap. split.
  - intros ([k' v] & -> & Hin). by exists v.
  - intros (v & Hin). by exists (k, v).
Qed.

Lemma copy_attributes_dgl (self : PointCloudToGraphTransform) (d : gmap string value)
    (n : nat) (es : list (nat * nat)) (nd ed : gmap string tensor) (g' : AbstractGraph) :
  backend self = "dgl" →
  copy_attributes self d (DGLGraph n es nd ed) = Ok g' →
  (∃ nd' ed', g' = DGLGraph n es nd' ed')
  ∧ ∀ k v, k ∈ node_keys self → d !! k = Some v → is_ok (dgl.frame_check n v) = true.
Proof.
  intros Hb. unfold copy_attributes, node_setter, edge_setter.
  rewrite !decide_True by done. run_monad.
  destruct (assign_all dgl.set_ndata _ _) as [g1|] eqn:H1; [|done].
  apply assign_all_dgl_nodes in H1 as [[nd' ->] Hall].
  intros [ed' ->]%assign_all_dgl_edges. split; [eauto|].
  intros k v Hk Hv. apply (Hall k v). by apply present_items_lookup.
Qed.

Lemma copy_attributes_pyg (self : PointCloudToGraphTransform) (d : gmap string value)
    (attrs : gmap string value) :
  backend self ≠ "dgl" →
  ∃ attrs',
    copy_attributes self d (PyGGraph attrs) = Ok (PyGGraph attrs')
    ∧ (∀ k, ¬ (k ∈ node_keys self ++ default [] (edge_keys self) ∧ is_Some (d !! k)) →
            attrs' !! k = attrs !! k)
    ∧ (∀ k v, k ∈ node_keys self ++ default [] (edge_keys self) → d !! k = Some v →
              attrs' !! k = Some v).
Proof.
  intros Hb. unfold copy_attributes, node_setter, edge_setter.
  rewrite !decide_False by done. run_monad.
  rewrite assign_all_pyg, assign_all_pyg. eexists. split; [done|]. split.
  - intros k Hk. rewrite !foldl_insert_other; [done|..].
    + intros (v & Hin)%elem_of_keys. apply present_items_lookup in Hin as [Hin Hv].
      apply Hk. rewrite elem_of_app. eauto.
    + intros (v & Hin)%elem_of_keys. apply present_items_lookup in Hin as [Hin Hv].
      apply Hk. rewrite elem_of_app. eauto.
  - intros k v Hin Hv.
    assert (Huniq : ∀ keys v', (k, v') ∈ present_items d keys → v' = v).
    { intros keys v' [_ Hv']%present_items_lookup. congruence. }
    apply elem_of_app in Hin as [Hin|Hin].
    + apply foldl_insert_same; [apply Huniq|]. left.
      apply foldl_insert_same; [apply Huniq|]. right.
      apply elem_of_keys. exists v. by apply present_items_lookup.
    + apply foldl_insert_same; [apply Huniq|]. right.
      apply elem_of_keys. exists v. by apply present_items_lookup.
Qed.

Lemma materialize_kind (self : PointCloudToGraphTransform)
    (adj_list : list (list nat)) (a p : tensor) (g : AbstractGraph) :
  materialize self adj_list a p = Ok g →
  (backend self = "dgl" →
     ∃ es, dgl.elist2tensor adj_list = Ok es
           ∧ g = DGLGraph (dim0 a) es (<["pos":=p]> (<["atomic_numbers":=a]> ∅)) ∅)
  ∧ (backend self ≠ "dgl" →
     ∃ ei, pyg_edge_index adj_list = Ok ei
           ∧ g = PyGGraph (<["atomic_numbers":=VTensor a]>
                             (<["pos":=VTensor p]> (<["edge_index":=VTensor ei]> ∅)))).
Proof.
  unfold materialize. intros H. split; intros Hb.
  - rewrite decide_True in H by done. by apply dgl_materialize_inv.
  - rewrite decide_False in H by done. by apply pyg_materialize_inv.
Qed.

Lemma lookup_graph_key (l : loc) (d : gmap string value) (k : string) :
  k ≠ "graph" → <["graph":=VGraph l]> d !! k = d !! k.
Proof. intros Hk. by rewrite lookup_insert_ne. Qed.

Section Finalized.

Variable cdist : tensor → tensor → result tensor.
Variable retrieve : value → result (tensor * tensor).

(** ** C3: bidirected edges for DGL only *)


(** ** C4: the keys of the sample after the transform *)

(** C4, amended: when the transform completes, the key 'graph' holds a
    graph object and no value of the sample was graph-typed beforehand;
    each of the seven point-cloud keys is absent, whether or not it was
    there; every other key has the value it had; and the graph objects that
    existed before are as they were. *)
Theorem call_frame (self : PointCloudToGraphTransform) (w w' : world) :
  call cdist retrieve self w = Ok (tt, w') →
  (∃ l g, data w' !! "graph" = Some (VGraph l) ∧ heap w' !! l = Some g)
  ∧ (∀ k v, data w !! k = Some v → is_graph v = false)
  ∧ (∀ k, k ∈ redundant_keys → data w' !! k = None)
  ∧ (∀ k, k ≠ "graph" → k ∉ redundant_keys → data w' !! k = data w !! k)
  ∧ (∀ l, l < length (heap w) → heap w' !! l = heap w !! l).
Proof.
  intros (Hp & a & p & adj & g & g' & Hm & He & Hg & Hc & Hw)%call_inv.
  cbn zeta in *.
  assert (Hkeys : ∀ d k, k ∈ redundant_keys →
            without_keys d redundant_keys !! k = None).
  { intros d k Hk. by rewrite without_keys_lookup, decide_True. }
  assert (Hrest : ∀ l k, k ≠ "graph" → k ∉ redundant_keys →
            without_keys (<["graph":=VGraph l]> (data w)) redundant_keys !! k = data w !! k).
  { intros l k H1 H2. by rewrite without_keys_lookup, decide_False, lookup_graph_key. }
  split_and!.
  - destruct Hw as [(_ & g'' & _ & Hd & Hh)|(_ & Hd & Hh)].
    + exists (S (length (heap w))), g''. rewrite Hd, Hh, lookup_insert_eq. split; [done|].
      rewrite lookup_app_r by lia.
      by replace (S (length (heap w)) - length (heap w)) with 1 by lia.
    + exists (length (heap w)), g'. rewrite Hd, Hh. split.
      * rewrite without_keys_lookup, decide_False by apply graph_not_redundant.
        by rewrite lookup_insert_eq.
      * rewrite lookup_app_r by lia. by rewrite Nat.sub_diag.
  - by apply (prologue_no_graph self).
  - intros k Hk. destruct Hw as [(_ & g'' & _ & -> & _)|(_ & -> & _)]; [|by apply Hkeys].
    rewrite lookup_insert_ne; [by apply Hkeys|].
    intros <-. by apply graph_not_redundant.
  - intros k H1 H2. destruct Hw as [(_ & g'' & _ & -> & _)|(_ & -> & _)]; [|by apply Hrest].
    rewrite lookup_insert_ne by done. by apply Hrest.
  - intros l Hl. destruct Hw as [(_ & g'' & _ & _ & ->)|(_ & _ & ->)];
      by rewrite lookup_app_l.
Qed.

End Finalized.


(** C4, counterexample: the key 'graph' need not be absent beforehand.  The
    validator looks for graph-typed values, not for the key: a sample whose
    'graph' key holds a number passes it, and the conversion overwrites the
    entry. *)
Lemma call_graph_key_present_before :
  is_ok (call cdist_reference no_pc_features (example_transform "dgl")
           (World stale_graph_key [] [])) = true
  ∧ stale_graph_key !! "graph" = Some (VFloat 0%float)
  ∧ ¬ (∀ self w w', call cdist_reference no_pc_features self w = Ok (tt, w') →
                    data w !! "graph" = None).
Proof.
  split; [vm_compute; reflexivity|]. split; [vm_compute; reflexivity|].
  intros H.
  destruct (call cdist_reference no_pc_features (example_transform "dgl")
              (World stale_graph_key [] [])) as [[[] w']|e] eqn:Hcall.
  - apply H in Hcall. vm_compute in Hcall. discriminate Hcall.
  - vm_compute in Hcall. discriminate Hcall.
Qed.

Lemma call_frame_witness :
  ∃ w', call cdist_reference no_pc_features (example_transform "pyg")
          (World two_atoms [] []) = Ok (tt, w')
        ∧ is_Some (data w' !! "graph")
        ∧ data w' !! "pos" = None
        ∧ data w' !! "atomic_numbers" = None
        ∧ data w' !! "energy" = Some (VFloat 1.5%float).
Proof.
  destruct (call cdist_reference no_pc_features (example_transform "pyg")
              (World two_atoms [] [])) as [[[] w']|e] eqn:Hcall;
    [|vm_compute in Hcall; discriminate Hcall].
  exists w'. split; [reflexivity|].
  destruct (call_frame _ _ _ _ _ Hcall) as ((l & g & Hg & _) & _ & Hdel & Hkeep & _).
  split; [by rewrite Hg|]. split; [|split].
  - apply Hdel. unfold redundant_keys. apply list_elem_of_here.
  - apply Hdel. unfold redundant_keys. do 3 apply list_elem_of_further. apply list_elem_of_here.
  - rewrite Hkeep; [vm_compute; reflexivity | discriminate |].
    unfold redundant_keys. intros Hin.
    repeat (apply elem_of_cons in Hin as [Hin|Hin]; [discriminate Hin|]).
    by apply elem_of_nil in Hin.
Defined.

(** ** C8: where the distance matrix comes from *)

Section DistanceMatrix.

Variable cdist : tensor → tensor → result tensor.
Variable retrieve : value → result (tensor * tensor).


End DistanceMatrix.


(** ** C10: the copier and the mask *)

Section Unmasked.

Variable cdist : tensor → tensor → result tensor.
Variable retrieve : value → result (tensor * tensor).


End Unmasked.



Lemma copy_keys_missing_witness :
  let w := World two_atoms [PyGGraph ∅] [] in
  heap w !! 0 = Some (PyGGraph ∅)
  ∧ copy_node_keys (example_transform "pyg") (VGraph 0) w
    = Ok (tt, World two_atoms
                [PyGGraph (<["atomic_numbers":=VTensor (Tensor 2 [] (Longs [6; 6]%Z))]> ∅)]
                [MissingNodeData "force"])
  ∧ copy_edge_keys (example_transform "pyg") (VGraph 0) w = Ok (tt, w).
Proof.
  cbn zeta. split; [reflexivity|].
  destruct (copy_keys_missing (example_transform "pyg") 0 (PyGGraph ∅)
              (World two_atoms [PyGGraph ∅] []) eq_refl)
    as (Hnode & _ & _ & _ & Hunset & _).
  split.
  - rewrite Hnode. vm_compute. reflexivity.
  - apply Hunset. by left.
Defined.

Lemma get_atom_types_cases_witness :
  get_atom_types no_pc_features two_atoms = Ok (VTensor (Tensor 2 [] (Longs [6; 6]%Z)))
  ∧ ∃ msg, get_atom_types no_pc_features ∅ = Raise (KeyError msg).
Proof.
  destruct (get_atom_types_cases no_pc_features two_atoms) as (Hpresent & _ & _).
  destruct (get_atom_types_cases no_pc_features ∅) as (_ & _ & Hnone).
  split.
  - apply Hpresent. vm_compute. reflexivity.
  - apply Hnone; reflexivity.
Defined.


(** ** Examples of the validator *)

Lemma prologue_raises_iff_witness :
  prologue (example_transform "dgl") (World two_atoms [] [])
  = Ok (tt, World two_atoms [] [])
  ∧ is_ok (prologue (example_transform "dgl")
             (World (delete "pos" two_atoms) [] [])) = false
  ∧ is_ok (prologue (example_transform "dgl")
             (World (<["old" := VGraph 0]> two_atoms) [PyGGraph ∅] [])) = false.
Proof.
  destruct (prologue_raises_iff (example_transform "dgl") (World two_atoms [] []))
    as (Hiff & _ & Hsame).
  destruct (prologue_raises_iff (example_transform "dgl")
              (World (delete "pos" two_atoms) [] [])) as ([_ Hpos] & _).
  destruct (prologue_raises_iff (example_transform "dgl")
              (World (<["old" := VGraph 0]> two_atoms) [PyGGraph ∅] [])) as ([_ Hgraph] & _).
  split; [|split].
  - destruct (prologue (example_transform "dgl") (World two_atoms [] []))
      as [[[] w']|e] eqn:Hrun; [|vm_compute in Hrun; discriminate Hrun].
    by rewrite (Hsame tt w' eq_refl).
  - apply Hpos. right. left. vm_compute. reflexivity.
  - apply Hgraph. left. exists "old", (VGraph 0). split; vm_compute; reflexivity.
Defined.

(** ** A remark on the orientation test of the PyG conversion *)

(** An edge list of exactly two edges gives a tensor whose first dimension
    is 2, which the orientation test takes for the expected layout: it is
    stored as it is, while any other non-empty edge list is transposed. *)
Lemma pyg_edge_index_orientation :
  pyg_edge_index [[1; 0]; [2; 0]] = Ok (Tensor 2 [2] (Longs [1; 0; 2; 0]%Z))
  ∧ pyg_edge_index [[1; 0]; [2; 0]; [2; 1]] = Ok (Tensor 2 [3] (Longs [1; 2; 2; 0; 0; 1]%Z)).
Proof. split; vm_compute; reflexivity. Qed.

(** * Further properties of the transform *)

(** ** The configured keys *)

Lemma set_node_keys_spec (values : list string) :
  NoDup (set_node_keys values) ∧ ∀ k, k ∈ set_node_keys values ↔ k ∈ values.
Proof.
  unfold set_node_keys. split; [apply NoDup_elements|].
  intros k. by rewrite elem_of_elements, elem_of_list_to_set.
Qed.


Lemma absent_keys_NoDup (d : gmap string value) (keys : list string) :
  NoDup keys → NoDup (absent_keys d keys).
Proof. apply NoDup_filter. Qed.

(** X2: a transform built by the constructor warns at most once for a
    missing node key, even when the key was configured several times, and
    only for configured keys that the sample lacks; the warnings already
    issued stay in front. *)
Theorem copier_warns_once_per_node_key (b : string) (c : float)
    (keys : list string) (ekeys : option (list string))
    (l : loc) (g : AbstractGraph) (w w' : world) :
  heap w !! l = Some g →
  copy_node_keys (init b c keys ekeys) (VGraph l) w = Ok (tt, w') →
  ∃ new, warnings w' = warnings w ++ new
         ∧ NoDup new
         ∧ ∀ x, x ∈ new ↔ ∃ k, x = MissingNodeData k ∧ k ∈ keys ∧ data w !! k = None.
Proof.
  intros Hl. rewrite (copy_node_keys_loop _ _ _ _ Hl).
  destruct (assign_all _ _ g) as [g'|]; [|done]. intros [= <-].
  destruct (set_node_keys_spec keys) as [Hnd Hin].
  exists (MissingNodeData <$> absent_keys (data w) (node_keys (init b c keys ekeys))).
  split_and!; [done| |].
  - apply NoDup_fmap_2; [by intros ?? [=] | by apply absent_keys_NoDup].
  - intros x. rewrite list_elem_of_fmap. split.
    + intros (k & -> & [Hk Hd]%absent_keys_lookup). exists k. split_and!; try done.
      by apply Hin.
    + intros (k & -> & Hk & Hd). exists k. split; [done|].
      apply absent_keys_lookup. split; [by apply Hin | done].
Qed.

Lemma copier_warns_once_per_node_key_witness :
  ∃ w' new,
    copy_node_keys (init "pyg" 7%float ["force"; "force"; "atomic_numbers"] None)
      (VGraph 0) (World two_atoms [PyGGraph ∅] []) = Ok (tt, w')
    ∧ warnings w' = new ∧ NoDup new ∧ MissingNodeData "force" ∈ new.
Proof.
  assert (∃ w', copy_node_keys (init "pyg" 7%float ["force"; "force"; "atomic_numbers"] None)
                  (VGraph 0) (World two_atoms [PyGGraph ∅] []) = Ok (tt, w')) as [w' Hrun]
    by (vm_compute; eexists; reflexivity).
  destruct (copier_warns_once_per_node_key _ _ _ _ 0 (PyGGraph ∅)
              (World two_atoms [PyGGraph ∅] []) w' eq_refl Hrun)
    as (new & Hw & Hnd & Hnew).
  exists w', new. split; [exact Hrun|]. split; [exact Hw|]. split; [exact Hnd|].
  apply Hnew. exists "force". split; [reflexivity|]. split; [apply list_elem_of_here|].
  vm_compute. reflexivity.
Defined.

(** ** More on the edge list *)

Lemma where_true_increasing (bs : list bool) (p k k' x y : nat) :
  k < k' →
  torch.where_true p bs !! k = Some x → torch.where_true p bs !! k' = Some y → x < y.
Proof.
  revert p k k'. induction bs as [|b bs IH]; intros p k k' Hlt; simpl; [done|].
  destruct b; simpl; [|by apply IH].
  destruct k as [|k], k' as [|k']; simpl; try lia.
  - intros [= <-] Hy. apply list_elem_of_lookup_2, where_true_spec in Hy as (j & -> & _). lia.
  - apply IH. lia.
Qed.

(** X3: the edge list of a matrix comes in row-major order: of two edges,
    the earlier one has the smaller row, or the same row and the smaller
    column. *)
Theorem edges_from_dist_row_major (n m : nat) (s : storage) (c : float)
    (E : list (list nat)) (k k' : nat) (e e' : list nat) :
  numel s = n * m →
  edges_from_dist (VTensor (Tensor n [m] s)) c = Ok E →
  k < k' → E !! k = Some e → E !! k' = Some e' →
  row_major_lt e e'.
Proof.
  intros Hlen. rewrite edges_from_dist_unfold. intros [= <-] Hlt.
  rewrite !list_lookup_fmap.
  destruct (torch.where_true 0 _ !! k) as [p|] eqn:Hp; [|done].
  destruct (torch.where_true 0 _ !! k') as [q|] eqn:Hq; [|done].
  intros (? & [= <-] & ->)%fmap_Some (? & [= <-] & ->)%fmap_Some.
  change (row_major_lt (torch.unravel [n; m] p) (torch.unravel [n; m] q)).
  rewrite !unravel_matrix. cbn [row_major_lt].
  pose proof (where_true_increasing _ _ _ _ _ _ Hlt Hp Hq) as Hpq.
  assert (q < n * m).
  { apply list_elem_of_lookup_2, where_true_spec in Hq as (j & -> & Hj).
    apply lookup_lt_Some in Hj.
    rewrite length_zip_with, !length_fmap in Hj.
    assert (length (as_floats (torch.tril_storage n m s)) = n * m) as Hl; [|lia].
    rewrite length_as_floats, <- Hlen. destruct s; simpl; by rewrite length_imap. }
  assert (0 < m) by (destruct m; lia).
  pose proof (Nat.div_mod_eq p m). pose proof (Nat.div_mod_eq q m).
  pose proof (Nat.mod_upper_bound p m). pose proof (Nat.mod_upper_bound q m).
  assert (p / m ≤ q / m) by (apply Nat.Div0.div_le_mono; lia).
  destruct (decide (p / m = q / m)); [right | left]; nia.
Qed.

Lemma edges_from_dist_row_major_witness :
  edges_from_dist (VTensor self_loop_matrix) 7%float = Ok [[0; 0]; [1; 0]; [1; 1]]
  ∧ row_major_lt [0; 0] [1; 0] ∧ row_major_lt [1; 0] [1; 1].
Proof.
  assert (Hrun : edges_from_dist (VTensor (Tensor 2 [2] (Floats [0.5; 3; 3; 0.5]%float)))
                   7%float = Ok [[0; 0]; [1; 0]; [1; 1]]) by reflexivity.
  split; [exact Hrun|]. split.
  - apply (edges_from_dist_row_major 2 2 (Floats [0.5; 3; 3; 0.5]%float) 7%float _ 0 1
             _ _ eq_refl Hrun); [lia|done..].
  - apply (edges_from_dist_row_major 2 2 (Floats [0.5; 3; 3; 0.5]%float) 7%float _ 1 2
             _ _ eq_refl Hrun); [lia|done..].
Defined.

(** Comparisons with values that are no finite numbers. *)
Lemma float_lt_nan_r (x : float) : PrimFloat.ltb x nan = false.
Proof.
  rewrite ltb_spec. change (Prim2SF nan) with S754_nan.
  unfold SFltb. by destruct (Prim2SF x).
Qed.

Lemma float_lt_infinity_l (y : float) : PrimFloat.ltb infinity y = false.
Proof.
  rewrite ltb_spec. change (Prim2SF infinity) with (S754_infinity false).
  unfold SFltb. by destruct (Prim2SF y) as [[]|[]| |[] ? ?].
Qed.

Lemma float_pos_not_below_zero (x : float) :
  PrimFloat.ltb 0%float x = true → PrimFloat.ltb x 0%float = false.
Proof.
  rewrite !ltb_spec. change (Prim2SF 0%float) with (S754_zero false).
  unfold SFltb. by destruct (Prim2SF x) as [[]|[]| |[] ? ?].
Qed.

Lemma all_pairs_absent (E : list (list nat)) :
  (∀ e, e ∈ E → ∃ i j, e = [i; j]) → (∀ i j, [i; j] ∉ E) → E = [].
Proof.
  intros Hpair Hnone. destruct E as [|e E]; [done|]. exfalso.
  destruct (Hpair e) as (i & j & ->); [apply list_elem_of_here|].
  apply (Hnone i j), list_elem_of_here.
Qed.

(** X4: entries that are no finite numbers never give an edge: a NaN or
    infinite entry is skipped whatever the cutoff, and a cutoff that is NaN
    or 0 leaves no edge at all. *)
Theorem edges_from_dist_non_finite (n m : nat) (s : storage) (c : float)
    (E : list (list nat)) :
  numel s = n * m →
  edges_from_dist (VTensor (Tensor n [m] s)) c = Ok E →
  (∀ i j, entry (Tensor n [m] s) [i; j] = Some nan → [i; j] ∉ E)
  ∧ (∀ i j, entry (Tensor n [m] s) [i; j] = Some infinity → [i; j] ∉ E)
  ∧ (∀ i j, entry (Tensor n [m] s) [i; j] = Some neg_infinity → [i; j] ∉ E)
  ∧ (c = nan ∨ c = 0%float → E = []).
Proof.
  intros Hlen HE.
  destruct (edges_from_dist_matrix n m s c Hlen) as (E' & HE' & _ & Hpair & Hin).
  rewrite HE in HE'. injection HE' as <-.
  assert (Hno : ∀ i j x, entry (Tensor n [m] s) [i; j] = Some x →
            PrimFloat.ltb 0%float x = false ∨ PrimFloat.ltb x c = false → [i; j] ∉ E).
  { intros i j x Hx Hbad (_ & _ & _ & y & Hy & H0 & Hc)%Hin.
    rewrite Hx in Hy. injection Hy as <-. destruct Hbad; congruence. }
  split_and!.
  - intros i j Hx. apply (Hno i j nan Hx). by left.
  - intros i j Hx. apply (Hno i j infinity Hx). right. apply float_lt_infinity_l.
  - intros i j Hx. apply (Hno i j neg_infinity Hx). by left.
  - intros Hc. apply all_pairs_absent; [done|].
    intros i j (_ & _ & _ & y & Hy & H0 & Hlt)%Hin. destruct Hc as [-> | ->].
    + by rewrite float_lt_nan_r in Hlt.
    + by rewrite (float_pos_not_below_zero y H0) in Hlt.
Qed.

Lemma edges_from_dist_non_finite_witness :
  edges_from_dist (VTensor (Tensor 2 [2] (Floats [0; 0; infinity; 0]%float))) 7%float = Ok []
  ∧ edges_from_dist (VTensor (Tensor 2 [2] two_atoms_matrix)) nan = Ok [].
Proof.
  assert (H1 : edges_from_dist (VTensor (Tensor 2 [2] (Floats [0; 0; infinity; 0]%float)))
                 7%float = Ok []) by reflexivity.
  assert (H2 : ∃ E, edges_from_dist (VTensor (Tensor 2 [2] two_atoms_matrix)) nan = Ok E)
    by (eexists; reflexivity).
  destruct H2 as [E H2].
  destruct (edges_from_dist_non_finite 2 2 two_atoms_matrix nan E eq_refl H2)
    as (_ & _ & _ & Hempty).
  split; [exact H1|]. rewrite H2. f_equal. apply Hempty. by left.
Defined.




(** ** More on the mask applier *)

#[local] Instance positive_dec (x : float) : Decision (positive x).
Proof. unfold positive. apply _. Defined.

Lemma select_rows_fmap {A B} (f : A → B) (r : nat) (bs : list bool) (xs : list A) :
  f <$> torch.select_rows r bs xs = torch.select_rows r bs (f <$> xs).
Proof.
  revert xs. induction bs as [|b bs IH]; intros xs; simpl; [done|].
  rewrite fmap_app, IH, fmap_drop. by destruct b; rewrite ?fmap_take.
Qed.

Lemma as_floats_select_rows (r : nat) (bs : list bool) (s : storage) :
  as_floats (smap (fun A => torch.select_rows r bs) s)
  = torch.select_rows r bs (as_floats s).
Proof. destruct s; simpl; by rewrite ?select_rows_fmap. Qed.

Lemma select_rows_filter (xs : list float) :
  torch.select_rows 1 ((fun x => PrimFloat.ltb 0%float x) <$> xs) xs = filter positive xs.
Proof.
  induction xs as [|x xs IH]; [done|].
  change (torch.select_rows 1 ((fun x => PrimFloat.ltb 0%float x) <$> x :: xs) (x :: xs))
    with ((if PrimFloat.ltb 0%float x then [x] else [])
          ++ torch.select_rows 1 ((fun x => PrimFloat.ltb 0%float x) <$> xs) xs).
  rewrite IH, filter_cons.
  destruct (decide (positive x)) as [Hx|Hx]; unfold positive in Hx.
  - by rewrite Hx.
  - by apply not_true_is_false in Hx as ->.
Qed.

Lemma count_true_positive (xs : list float) :
  torch.count_true ((fun x => PrimFloat.ltb 0%float x) <$> xs) = length (filter positive xs).
Proof.
  unfold torch.count_true. induction xs as [|x xs IH]; [done|].
  rewrite fmap_cons, !filter_cons.
  destruct (decide (positive x)) as [Hx|Hx]; unfold positive in Hx.
  - rewrite decide_True by done. simpl. by rewrite IH.
  - rewrite decide_False by done. done.
Qed.

Lemma default_mask_getitem (a x : tensor) :
  dims a = [] →
  torch.getitem x (torch.gt_scalar a 0%float)
  = if decide (dim0 x = dim0 a)
    then let bs := (fun y => PrimFloat.ltb 0%float y) <$> as_floats (elems a) in
         Ok (Tensor (torch.count_true bs) (dims x)
               (smap (fun A => torch.select_rows (prod (dims x)) bs) (elems x)))
    else Raise IndexError.
Proof.
  intros Ha. unfold torch.getitem, torch.gt_scalar, torch.scalar_lt, ndim, shape.
  cbn [elems dim0 dims]. rewrite Ha. cbn [length take drop].
  destruct (decide (dim0 x = dim0 a)) as [->|Hne].
  - by rewrite decide_True.
  - rewrite decide_False; [done|]. by intros [= ?].
Qed.

Lemma default_mask_run (a p : tensor) (d : gmap string value) :
  d !! "src_mask" = None → dims a = [] →
  _apply_mask (VTensor a) (VTensor p) d
  = if decide (dim0 p = dim0 a)
    then let bs := (fun y => PrimFloat.ltb 0%float y) <$> as_floats (elems a) in
         Ok (Tensor (torch.count_true bs) []
               (smap (fun A => torch.select_rows 1 bs) (elems a)),
             Tensor (torch.count_true bs) (dims p)
               (smap (fun A => torch.select_rows (prod (dims p)) bs) (elems p)))
    else Raise IndexError.
Proof.
  intros Hd Ha. unfold _apply_mask. rewrite Hd. run_monad. cbn [as_tensor].
  rewrite !default_mask_getitem by done. rewrite decide_True by done.
  cbn zeta. rewrite Ha. cbn [prod foldr].
  by destruct (decide (dim0 p = dim0 a)).
Qed.

(** X6: without 'src_mask', the mask applier keeps exactly the labels that
    are greater than zero, in their order: no label that is zero, negative
    or NaN survives, and the positions keep as many rows as labels are kept,
    each with the trailing dimensions it had. *)
Theorem default_mask_keeps_positive_labels (a p a' p' : tensor) (d : gmap string value) :
  d !! "src_mask" = None → dims a = [] →
  _apply_mask (VTensor a) (VTensor p) d = Ok (a', p') →
  as_floats (elems a') = filter positive (as_floats (elems a))
  ∧ Forall positive (as_floats (elems a'))
  ∧ dim0 a' = length (filter positive (as_floats (elems a)))
  ∧ dims a' = []
  ∧ dim0 p' = dim0 a' ∧ dims p' = dims p.
Proof.
  intros Hd Ha. rewrite default_mask_run by done.
  destruct (decide (dim0 p = dim0 a)); [|done]. cbn zeta. intros [= <- <-].
  cbn [elems dim0 dims]. rewrite as_floats_select_rows, select_rows_filter, count_true_positive.
  split_and!; try done.
  apply Forall_forall. by intros x [? _]%list_elem_of_filter.
Qed.

Lemma default_mask_keeps_positive_labels_witness :
  ∃ a' p',
    _apply_mask (VTensor (Tensor 3 [] (Longs [6; 6; 0]%Z)))
      (VTensor (Tensor 3 [3] (Floats [0; 0; 0; 3; 4; 0; 0; 0; 0]%float))) padded_pair
    = Ok (a', p')
    ∧ as_floats (elems a') = [6; 6]%float ∧ dim0 p' = 2.
Proof.
  assert (∃ a' p', _apply_mask (VTensor (Tensor 3 [] (Longs [6; 6; 0]%Z)))
            (VTensor (Tensor 3 [3] (Floats [0; 0; 0; 3; 4; 0; 0; 0; 0]%float))) padded_pair
          = Ok (a', p')) as (a' & p' & Hrun) by (vm_compute; eexists _, _; reflexivity).
  destruct (default_mask_keeps_positive_labels
              (Tensor 3 [] (Longs [6; 6; 0]%Z))
              (Tensor 3 [3] (Floats [0; 0; 0; 3; 4; 0; 0; 0; 0]%float))
              a' p' padded_pair eq_refl eq_refl Hrun)
    as (Hkept & _ & Hn & _ & Hp & _).
  exists a', p'. split; [exact Hrun|]. split.
  - rewrite Hkept. vm_compute. reflexivity.
  - rewrite Hp, Hn. vm_compute. reflexivity.
Defined.

Lemma select_rows_all {A} (r : nat) (bs : list bool) (xs : list A) :
  Forall (fun b => b = true) bs → length xs = length bs * r →
  torch.select_rows r bs xs = xs.
Proof.
  revert xs. induction bs as [|b bs IH]; intros xs Hall Hlen.
  - by destruct xs.
  - apply Forall_cons in Hall as [-> Hall]. cbn [torch.select_rows].
    rewrite IH; [apply take_drop | done |].
    rewrite length_drop, Hlen. simpl. lia.
Qed.

Lemma count_true_all (bs : list bool) :
  Forall (fun b => b = true) bs → torch.count_true bs = length bs.
Proof.
  unfold torch.count_true. induction 1 as [|b bs -> _ IH]; [done|].
  rewrite filter_cons, decide_True by done. simpl. by rewrite IH.
Qed.

Lemma smap_id (f : ∀ A, list A → list A) (s : storage) :
  (∀ A (xs : list A), length xs = numel s → f A xs = xs) → smap f s = s.
Proof. intros H. destruct s; simpl; by rewrite H. Qed.

(** With every label positive the default mask is true everywhere, and
    selecting by it gives back the rows as they are. *)
Lemma apply_mask_all_positive (a p : tensor) (d : gmap string value) :
  d !! "src_mask" = None → dims a = [] →
  well_formed a → well_formed p → dim0 p = dim0 a →
  Forall positive (as_floats (elems a)) →
  _apply_mask (VTensor a) (VTensor p) d = Ok (a, p).
Proof.
  intros Hd Ha Hwa Hwp Hp Hpos. rewrite default_mask_run by done.
  rewrite decide_True by done. cbn zeta.
  set (bs := (fun y => PrimFloat.ltb 0%float y) <$> as_floats (elems a)).
  assert (Hall : Forall (fun b => b = true) bs).
  { unfold bs. apply Forall_fmap. eapply Forall_impl; [exact Hpos | done]. }
  assert (Hlen : length bs = dim0 a).
  { unfold bs. rewrite length_fmap, length_as_floats, Hwa. unfold shape.
    rewrite Ha. cbn [prod foldr]. lia. }
  rewrite count_true_all, Hlen by done.
  rewrite !smap_id.
  - destruct a as [n ds s], p as [n' ds' s']. simpl in *. by subst.
  - intros A xs Hxs. apply select_rows_all; [done|].
    rewrite Hxs, Hwp, Hlen. unfold shape. cbn [prod foldr]. by rewrite Hp.
  - intros A xs Hxs. apply select_rows_all; [done|].
    rewrite Hxs, Hwa, Hlen. unfold shape. rewrite Ha. cbn [prod foldr]. lia.
Qed.

(** X7: a sample without padding passes the mask applier unchanged: when
    every label is greater than zero and there is no 'src_mask', the
    labels and the positions come back as they were. *)
Theorem mask_without_padding_is_identity (a p : tensor) (d : gmap string value) :
  d !! "src_mask" = None → dims a = [] →
  well_formed a → well_formed p → dim0 p = dim0 a →
  Forall positive (as_floats (elems a)) →
  _apply_mask (VTensor a) (VTensor p) d = Ok (a, p).
Proof. exact (apply_mask_all_positive a p d). Qed.

Lemma mask_without_padding_is_identity_witness :
  _apply_mask (VTensor (Tensor 2 [] (Longs [6; 6]%Z)))
    (VTensor (Tensor 2 [3] (Floats [0; 0; 0; 3; 4; 0]%float))) two_atoms
  = Ok (Tensor 2 [] (Longs [6; 6]%Z), Tensor 2 [3] (Floats [0; 0; 0; 3; 4; 0]%float)).
Proof.
  apply mask_without_padding_is_identity; try reflexivity.
  repeat constructor.
Defined.

(** X8: the mask applier does not truncate or pad.  Without 'src_mask',
    positions whose number of rows differs from the number of labels raise
    an IndexError; so does a 'src_mask' of floating-point numbers, and an
    integer 'src_mask' with an index outside [-N, N) for [N] labels. *)
Theorem mask_applier_index_errors (a p : tensor) (d : gmap string value) :
  (d !! "src_mask" = None → dims a = [] → dim0 p ≠ dim0 a →
     _apply_mask (VTensor a) (VTensor p) d = Raise IndexError)
  ∧ (∀ m xs, d !! "src_mask" = Some (VTensor m) → elems m = Floats xs →
       _apply_mask (VTensor a) (VTensor p) d = Raise IndexError)
  ∧ (∀ m ix z, d !! "src_mask" = Some (VTensor m) → elems m = Longs ix →
       z ∈ ix → ¬ (- Z.of_nat (dim0 a) ≤ z < Z.of_nat (dim0 a))%Z →
       _apply_mask (VTensor a) (VTensor p) d = Raise IndexError).
Proof.
  split_and!.
  - intros Hd Ha Hne. rewrite default_mask_run by done. by rewrite decide_False.
  - intros m xs Hd Hm. unfold _apply_mask. rewrite Hd. run_monad. cbn [as_tensor].
    unfold torch.getitem. by rewrite Hm.
  - intros m ix z Hd Hm Hz Hout. unfold _apply_mask. rewrite Hd. run_monad.
    cbn [as_tensor]. unfold torch.getitem at 1. rewrite Hm.
    destruct (mapM (torch.norm_index (dim0 a)) ix) as [ks|] eqn:Hks; [|done].
    exfalso. assert (is_Some (mapM (torch.norm_index (dim0 a)) ix)) as Hsome by eauto.
    apply mapM_is_Some in Hsome. rewrite Forall_forall in Hsome.
    destruct (Hsome z Hz) as [k Hk]. simpl in Hk. unfold torch.norm_index in Hk.
    repeat case_decide; try done; lia.
Qed.

Lemma mask_applier_index_errors_witness :
  _apply_mask (VTensor (Tensor 2 [] (Longs [6; 6]%Z)))
    (VTensor (Tensor 3 [3] (Floats [0; 0; 0; 3; 4; 0; 0; 0; 0]%float))) two_atoms
  = Raise IndexError
  ∧ _apply_mask (VTensor (Tensor 2 [] (Longs [6; 6]%Z)))
      (VTensor (Tensor 2 [3] (Floats [0; 0; 0; 3; 4; 0]%float)))
      (<["src_mask" := VTensor (Tensor 1 [] (Longs [2%Z]))]> two_atoms)
    = Raise IndexError.
Proof.
  split.
  - apply (mask_applier_index_errors (Tensor 2 [] (Longs [6; 6]%Z))
             (Tensor 3 [3] (Floats [0; 0; 0; 3; 4; 0; 0; 0; 0]%float)) two_atoms);
      [reflexivity | reflexivity | simpl; lia].
  - eapply (mask_applier_index_errors (Tensor 2 [] (Longs [6; 6]%Z))
              (Tensor 2 [3] (Floats [0; 0; 0; 3; 4; 0]%float))
              (<["src_mask" := VTensor (Tensor 1 [] (Longs [2%Z]))]> two_atoms)).
    + reflexivity.
    + reflexivity.
    + apply list_elem_of_here.
    + simpl. lia.
Defined.

(** ** More on the DGL conversion *)

Lemma edges_in_range_forallb (n : nat) (es : list (nat * nat)) :
  forallb (fun e => (e.1 <? n) && (e.2 <? n)) es = true ↔ edges_in_range n es.
Proof.
  unfold edges_in_range. rewrite forallb_forall, Forall_forall.
  split; intros H e He.
  - apply list_elem_of_In, H, andb_true_iff in He as [? ?]. split; by apply Nat.ltb_lt.
  - apply list_elem_of_In, H in He as [? ?]. apply andb_true_iff. split; by apply Nat.ltb_lt.
Qed.

Lemma dgl_materialize_run (adj_list : list (list nat)) (es : list (nat * nat)) (a p : tensor) :
  dgl.elist2tensor adj_list = Ok es → dim0 p = dim0 a →
  dgl_materialize adj_list a p
  = if forallb (fun e => (e.1 <? dim0 a) && (e.2 <? dim0 a)) es
    then Ok (DGLGraph (dim0 a) es (<["pos":=p]> (<["atomic_numbers":=a]> ∅)) ∅)
    else Raise DGLError.
Proof.
  intros Hes Hp. unfold dgl_materialize, dgl.graph. rewrite Hes. run_monad.
  destruct (forallb _ es); [|done].
  unfold dgl.set_ndata, dgl.frame_check. run_monad.
  rewrite decide_True by done. rewrite decide_True by done. done.
Qed.

Section DglConversion.

Variable cdist : tensor → tensor → result tensor.
Variable retrieve : value → result (tensor * tensor).

Lemma convert_dgl_run (self : PointCloudToGraphTransform) (w : world)
    (a p : tensor) (adj_list : list (list nat)) (es : list (nat * nat)) :
  backend self = "dgl" →
  masked_inputs retrieve (data w) = Ok (a, p) →
  derived_edges cdist self (data w) p = Ok adj_list →
  dgl.elist2tensor adj_list = Ok es →
  convert cdist retrieve self w
  = if forallb (fun e => (e.1 <? dim0 a) && (e.2 <? dim0 a)) es
    then Ok (tt, World (<["graph":=VGraph (length (heap w))]> (data w))
                   (heap w ++ [DGLGraph (dim0 a) es
                                 (<["pos":=p]> (<["atomic_numbers":=a]> ∅)) ∅])
                   (warnings w))
    else Raise DGLError.
Proof.
  intros Hb Hm He Hes. rewrite convert_unfold, Hm, He. unfold materialize.
  rewrite decide_True by done.
  rewrite (dgl_materialize_run _ es) by (done || by eapply masked_inputs_dim0).
  by destruct (forallb _ es).
Qed.

(** X9: the DGL conversion raises a DGLError exactly when a derived edge
    names a node that the mask has not kept (as can happen with a supplied
    distance matrix, which is not masked); otherwise it stores under 'graph'
    a new graph with one node per kept atom, the derived edges, and the
    filtered labels and positions as its only node attributes, and leaves
    every other key of the sample as it is. *)
Theorem dgl_conversion_edges_in_range (self : PointCloudToGraphTransform) (w : world)
    (a p : tensor) (adj_list : list (list nat)) (es : list (nat * nat)) :
  backend self = "dgl" →
  masked_inputs retrieve (data w) = Ok (a, p) →
  derived_edges cdist self (data w) p = Ok adj_list →
  dgl.elist2tensor adj_list = Ok es →
  (edges_in_range (dim0 a) es →
     convert cdist retrieve self w
     = Ok (tt, World (<["graph":=VGraph (length (heap w))]> (data w))
                 (heap w ++ [DGLGraph (dim0 a) es
                               (<["pos":=p]> (<["atomic_numbers":=a]> ∅)) ∅])
                 (warnings w)))
  ∧ (¬ edges_in_range (dim0 a) es → convert cdist retrieve self w = Raise DGLError).
Proof.
  intros Hb Hm He Hes. rewrite (convert_dgl_run self w a p adj_list es) by done.
  destruct (forallb _ es) eqn:Hr.
  - apply edges_in_range_forallb in Hr. by split.
  - split; [|done]. intros Hin%edges_in_range_forallb. congruence.
Qed.

End DglConversion.

Lemma dgl_conversion_edges_in_range_witness :
  convert cdist_reference no_pc_features (example_transform "dgl")
    (World padded_pair_with_distances [] []) = Raise DGLError
  ∧ is_ok (convert cdist_reference no_pc_features (example_transform "dgl")
             (World padded_pair [] [])) = true.
Proof.
  assert (Hm : ∀ d, d = padded_pair ∨ d = padded_pair_with_distances →
            masked_inputs no_pc_features (data (World d [] []))
            = Ok (Tensor 2 [] (Longs [6; 6]%Z),
                  Tensor 2 [3] (Floats [0; 0; 0; 3; 4; 0]%float)))
    by (intros d [-> | ->]; vm_compute; reflexivity).
  split.
  - eapply (dgl_conversion_edges_in_range cdist_reference no_pc_features
              (example_transform "dgl") (World padded_pair_with_distances [] [])
              _ _ [[1; 0]; [2; 0]; [2; 1]] [(1, 0); (2, 0); (2, 1)]).
    + reflexivity.
    + apply Hm. by right.
    + vm_compute. reflexivity.
    + reflexivity.
    + unfold edges_in_range. rewrite !Forall_cons. simpl. lia.
  - destruct (dgl_conversion_edges_in_range cdist_reference no_pc_features
                (example_transform "dgl") (World padded_pair [] [])
                _ _ [[1; 0]] [(1, 0)] eq_refl (Hm _ (or_introl eq_refl))
                ltac:(vm_compute; reflexivity) eq_refl) as [Hok _].
    rewrite Hok; [reflexivity|].
    unfold edges_in_range. rewrite !Forall_cons. simpl. split; [lia | constructor].
Defined.




Section ComputedDistances.

Variable cdist : tensor → tensor → result tensor.
Variable retrieve : value → result (tensor * tensor).



End ComputedDistances.





(** ** The layout of the PyG edge index *)

Lemma omap_seq_lookup {A} (l : list A) (g : nat → option A) (start n : nat) :
  length l = n →
  (∀ i, i < n → g (start + i) = l !! i) →
  omap g (seq start n) = l.
Proof.
  intros <-. revert start. induction l as [|x l IH]; intros start Hg; [done|].
  cbn [length seq omap list_omap].
  pose proof (Hg 0 ltac:(simpl; lia)) as H0. rewrite Nat.add_0_r in H0.
  rewrite H0. cbn [lookup list_lookup]. f_equal. apply IH.
  intros i Hi. pose proof (Hg (S i) ltac:(simpl; lia)) as HS.
  change ((x :: l) !! S i) with (l !! i) in HS. rewrite <- HS. f_equal. lia.
Qed.

Lemma concat_pair_rows_lookup (es : list (nat * nat)) (i : nat) :
  concat (pair_rows es) !! (i * 2) = fst <$> es !! i
  ∧ concat (pair_rows es) !! (i * 2 + 1) = snd <$> es !! i.
Proof.
  revert i. induction es as [|[u v] es IH]; intros i; [done|].
  destruct i as [|i]; [done|]. apply (IH i).
Qed.

Lemma length_concat_pair_rows (es : list (nat * nat)) :
  length (concat (pair_rows es)) = length es + length es.
Proof. induction es as [|[u v] es IH]; simpl; [done | lia]. Qed.

Lemma transpose_pair_rows (es : list (nat * nat)) :
  es ≠ [] →
  torch.T (Tensor (length es) [2] (Longs (Z.of_nat <$> concat (pair_rows es))))
  = Tensor 2 [length es] (Longs (Z.of_nat <$> (es.*1 ++ es.*2))).
Proof.
  intros Hne. unfold torch.T, shape. cbn [dim0 dims elems rev app hd tl smap].
  do 2 f_equal. set (E := length es).
  assert (0 < E) by (unfold E; destruct es; simpl; [done | lia]).
  rewrite length_fmap, length_concat_pair_rows. fold E.
  rewrite seq_app, omap_app, fmap_app. f_equal.
  - apply omap_seq_lookup; [by rewrite !length_fmap|]. intros i Hi.
    rewrite Nat.add_0_l, unravel_matrix, Nat.div_small, Nat.mod_small by done.
    cbn [rev app]. rewrite ravel_matrix, Nat.add_0_r, !list_lookup_fmap.
    by destruct (concat_pair_rows_lookup es i) as [-> _].
  - apply omap_seq_lookup; [by rewrite !length_fmap|]. intros i Hi.
    rewrite Nat.add_0_l, unravel_matrix.
    replace ((E + i) / E) with 1
      by (apply Nat.div_unique with i; lia).
    replace ((E + i) mod E) with i
      by (apply Nat.mod_unique with 1; lia).
    cbn [rev app]. rewrite ravel_matrix, !list_lookup_fmap.
    by destruct (concat_pair_rows_lookup es i) as [_ ->].
Qed.

Lemma LongTensor_pair_rows (es : list (nat * nat)) :
  es ≠ [] →
  torch.LongTensor (pair_rows es)
  = Ok (Tensor (length es) [2] (Longs (Z.of_nat <$> concat (pair_rows es)))).
Proof.
  intros Hne. destruct es as [|e es]; [done|].
  unfold torch.LongTensor. cbn [pair_rows fmap list_fmap].
  assert (forallb (fun e0 => length e0 =? length [e.1; e.2])
            ([e.1; e.2] :: ((fun e0 => [e0.1; e0.2]) <$> es)) = true) as ->.
  { apply forallb_forall. intros r [->|Hr]%list_elem_of_In%elem_of_cons; [done|].
    by apply list_elem_of_fmap in Hr as (e' & -> & _). }
  by rewrite length_cons, length_fmap.
Qed.

(** X11: the edge index that the PyG conversion stores.  For no edge the
    orientation test raises an IndexError; for exactly two edges the tensor
    keeps one edge per row, which PyG reads as one edge per column; for any
    other number [E] of edges it has shape [2, E], the sources in the first
    row and the destinations in the second. *)
Theorem pyg_edge_index_layout (es : list (nat * nat)) :
  pyg_edge_index (pair_rows es)
  = match es with
    | [] => Raise IndexError
    | [e1; e2] => Ok (Tensor 2 [2] (Longs (Z.of_nat <$> [e1.1; e1.2; e2.1; e2.2])))
    | _ => Ok (Tensor 2 [length es] (Longs (Z.of_nat <$> (es.*1 ++ es.*2))))
    end.
Proof.
  destruct es as [|e1 es]; [done|].
  unfold pyg_edge_index. rewrite LongTensor_pair_rows by done. run_monad.
  unfold torch.size, shape. cbn [dim0 dims lookup list_lookup].
  destruct es as [|e2 [|e3 es]].
  - replace (negb (length [e1] =? 2)) with true by done.
    change (2 =? 2) with true. cbn iota. by rewrite transpose_pair_rows.
  - done.
  - replace (negb (length (e1 :: e2 :: e3 :: es) =? 2)) with true by done.
    change (2 =? 2) with true. cbn iota. by rewrite transpose_pair_rows.
Qed.

(** ** The graph of a completed transform *)

Lemma frame_check_inv (n : nat) (v : value) (t : tensor) :
  dgl.frame_check n v = Ok t → v = VTensor t ∧ dim0 t = n.
Proof.
  destruct v as [t'|a|x|l]; simpl; try done.
  - destruct (decide (dim0 t' = n)); [|done]. by intros [= <-].
  - by destruct (decide (dim0 a = n)).
Qed.

Lemma frame_check_ok (n : nat) (v : value) :
  is_ok (dgl.frame_check n v) = true ↔ fits_frame n v.
Proof.
  split.
  - destruct (dgl.frame_check n v) as [t|] eqn:Ht; [|done].
    intros _. exists t. by apply frame_check_inv.
  - intros (t & -> & <-). simpl. by rewrite decide_True.
Qed.

(** The node frame after the DGL copier: a configured key of the sample
    holds the sample's tensor, every other key what it held. *)
Lemma assign_present_dgl_nodes (d : gmap string value) (keys : list string) (n : nat)
    (es : list (nat * nat)) (nd ed : gmap string tensor) (g' : AbstractGraph) :
  assign_all dgl.set_ndata (present_items d keys) (DGLGraph n es nd ed) = Ok g' →
  ∃ nd', g' = DGLGraph n es nd' ed
    ∧ (∀ k, ¬ (k ∈ keys ∧ is_Some (d !! k)) → nd' !! k = nd !! k)
    ∧ (∀ k v, k ∈ keys → d !! k = Some v →
         ∃ t, v = VTensor t ∧ dim0 t = n ∧ nd' !! k = Some t).
Proof.
  revert nd. induction keys as [|k0 keys IH]; intros nd.
  - intros [= <-]. exists nd. split_and!; [done|done|]. by intros k v ?%elem_of_nil.
  - rewrite present_items_cons. destruct (d !! k0) as [v0|] eqn:Hk0.
    + cbn [assign_all]. run_monad. simpl.
      destruct (dgl.frame_check n v0) as [t0|] eqn:Ht0; [|done].
      intros (nd' & -> & Hother & Hsame)%IH. exists nd'. split_and!; [done| |].
      * intros k Hk. rewrite Hother.
        -- rewrite lookup_insert_ne; [done|]. intros <-. apply Hk.
           split; [by left | by rewrite Hk0].
        -- intros [Hin Hs]. apply Hk. split; [by right | done].
      * intros k v [->|Hin]%elem_of_cons Hv; [|by eapply Hsame].
        destruct (decide (k0 ∈ keys)) as [Hin|Hnin]; [by eapply Hsame|].
        rewrite Hother by (by intros [? _]). rewrite lookup_insert_eq.
        rewrite Hk0 in Hv. injection Hv as <-.
        apply frame_check_inv in Ht0 as [-> <-]. eauto.
    + intros (nd' & -> & Hother & Hsame)%IH. exists nd'. split_and!; [done| |].
      * intros k Hk. apply Hother. intros [Hin Hs]. apply Hk. split; [by right | done].
      * intros k v [->|Hin]%elem_of_cons Hv; [congruence | by eapply Hsame].
Qed.

Lemma copy_attributes_dgl_frames (self : PointCloudToGraphTransform) (d : gmap string value)
    (n : nat) (es : list (nat * nat)) (nd ed : gmap string tensor) (g' : AbstractGraph) :
  backend self = "dgl" →
  copy_attributes self d (DGLGraph n es nd ed) = Ok g' →
  ∃ nd' ed', g' = DGLGraph n es nd' ed'
    ∧ (∀ k, ¬ (k ∈ node_keys self ∧ is_Some (d !! k)) → nd' !! k = nd !! k)
    ∧ (∀ k v, k ∈ node_keys self → d !! k = Some v →
         ∃ t, v = VTensor t ∧ dim0 t = n ∧ nd' !! k = Some t).
Proof.
  intros Hb. unfold copy_attributes, node_setter, edge_setter.
  rewrite !decide_True by done. run_monad.
  destruct (assign_all dgl.set_ndata _ _) as [g1|] eqn:H1; [|done].
  apply assign_present_dgl_nodes in H1 as (nd' & -> & Hother & Hsame).
  intros (ed' & ->)%assign_all_dgl_edges. by exists nd', ed'.
Qed.

Section FinishedGraph.

Variable cdist : tensor → tensor → result tensor.
Variable retrieve : value → result (tensor * tensor).

(** The graph a completed call leaves under 'graph'. *)
Lemma call_final_graph (self : PointCloudToGraphTransform) (w w' : world) :
  call cdist retrieve self w = Ok (tt, w') →
  ∃ a p adj_list g g' l gf,
    masked_inputs retrieve (data w) = Ok (a, p)
    ∧ derived_edges cdist self (data w) p = Ok adj_list
    ∧ materialize self adj_list a p = Ok g
    ∧ copy_attributes self (<["graph":=VGraph (length (heap w))]> (data w)) g = Ok g'
    ∧ data w' !! "graph" = Some (VGraph l) ∧ heap w' !! l = Some gf
    ∧ (backend self = "dgl" → dgl.to_bidirected g' = Ok gf)
    ∧ (backend self ≠ "dgl" → gf = g').
Proof.
  intros (_ & a & p & adj & g & g' & Hm & He & Hg & Hc & Hw)%call_inv.
  cbn zeta in *. exists a, p, adj, g, g'.
  destruct Hw as [(Hb & g'' & Hbi & Hd & Hh)|(Hb & Hd & Hh)].
  - exists (S (length (heap w))), g''. split_and!; try done.
    + by rewrite Hd, lookup_insert_eq.
    + rewrite Hh, lookup_app_r by lia.
      by replace (S (length (heap w)) - length (heap w)) with 1 by lia.
  - exists (length (heap w)), g'. split_and!; try done.
    + rewrite Hd, without_keys_lookup, decide_False by apply graph_not_redundant.
      by rewrite lookup_insert_eq.
    + rewrite Hh, lookup_app_r by lia. by rewrite Nat.sub_diag.
Qed.


(** X13: a configured node key that the sample has ends up on the graph of
    a completed transform with the sample's own value, with either backend;
    with the DGL backend that value is a tensor with one row per node. *)
Theorem call_copies_configured_node_keys (self : PointCloudToGraphTransform)
    (w w' : world) (k : string) (v : value) :
  call cdist retrieve self w = Ok (tt, w') →
  k ∈ node_keys self → k ≠ "graph" → data w !! k = Some v →
  ∃ l g,
    data w' !! "graph" = Some (VGraph l) ∧ heap w' !! l = Some g
    ∧ node_attribute g k = Some v
    ∧ (backend self = "dgl" → ∃ n es nd ed, g = DGLGraph n es nd ed ∧ fits_frame n v).
Proof.
  intros (a & p & adj & g & g' & l & gf & _ & _ & Hg & Hc & Hd & Hh & Hdgl & Hpyg)%call_final_graph
    Hin Hne Hv.
  exists l, gf. do 2 (split; [done|]).
  apply materialize_kind in Hg as [Hg1 Hg2].
  assert (Hv' : <["graph":=VGraph (length (heap w))]> (data w) !! k = Some v)
    by (by rewrite lookup_graph_key).
  destruct (decide (backend self = "dgl")) as [Hb|Hb].
  - destruct (Hg1 Hb) as (es & _ & ->).
    apply copy_attributes_dgl_frames in Hc as (nd' & ed' & -> & _ & Hsame); [|done].
    specialize (Hdgl Hb). injection Hdgl as <-.
    destruct (Hsame k v Hin Hv') as (t & -> & Hdim & Ht).
    split; [by simpl; rewrite Ht|]. intros _. do 4 eexists. split; [done|]. by exists t.
  - destruct (Hg2 Hb) as (ei & _ & ->). rewrite (Hpyg Hb).
    destruct (copy_attributes_pyg self (<["graph":=VGraph (length (heap w))]> (data w))
                (<["atomic_numbers":=VTensor a]>
                   (<["pos":=VTensor p]> (<["edge_index":=VTensor ei]> ∅))) Hb)
      as (attrs' & Hc' & _ & Hsame).
    rewrite Hc' in Hc. injection Hc as <-. split; [|done].
    simpl. apply Hsame; [|done]. apply elem_of_app. by left.
Qed.

(** X14: the transform cannot be applied to its own result.  Whatever the
    configuration of the second transform, the validator finds the graph
    that the first one left and raises its AssertionError. *)
Theorem call_not_repeatable (self self' : PointCloudToGraphTransform) (w w' : world) :
  call cdist retrieve self w = Ok (tt, w') →
  call cdist retrieve self' w'
  = Raise (AssertionError
      "Data structure already contains a graph: transform shouldn't be required.").
Proof.
  intros (a & p & adj & g & g' & l & gf & _ & _ & _ & _ & Hd & _)%call_final_graph.
  assert (Hcheck : _check_for_type (data w') is_graph = true).
  { apply _check_for_type_spec. by exists "graph", (VGraph l). }
  unfold call. run_monad. by rewrite prologue_unfold, Hcheck.
Qed.

End FinishedGraph.


Lemma call_copies_configured_node_keys_witness :
  ∃ w' l g,
    call cdist_reference no_pc_features egnn_transform (World two_atoms [] []) = Ok (tt, w')
    ∧ data w' !! "graph" = Some (VGraph l) ∧ heap w' !! l = Some g
    ∧ node_attribute g "atomic_numbers" = Some (VTensor (Tensor 2 [] (Longs [6; 6]%Z))).
Proof.
  destruct (call cdist_reference no_pc_features egnn_transform (World two_atoms [] []))
    as [[[] w']|e] eqn:Hcall; [|vm_compute in Hcall; discriminate Hcall].
  assert (Hin : "atomic_numbers" ∈ node_keys egnn_transform).
  { apply set_node_keys_spec. apply list_elem_of_further, list_elem_of_here. }
  destruct (call_copies_configured_node_keys _ _ _ _ _ "atomic_numbers"
              (VTensor (Tensor 2 [] (Longs [6; 6]%Z))) Hcall Hin)
    as (l & g & Hd & Hh & Hk & _); [discriminate | reflexivity |].
  exists w', l, g. repeat split; assumption.
Defined.

Lemma call_not_repeatable_witness :
  ∃ w',
    call cdist_reference no_pc_features egnn_transform (World two_atoms [] []) = Ok (tt, w')
    ∧ call cdist_reference no_pc_features (example_transform "pyg") w'
      = Raise (AssertionError
          "Data structure already contains a graph: transform shouldn't be required.").
Proof.
  destruct (call cdist_reference no_pc_features egnn_transform (World two_atoms [] []))
    as [[[] w']|e] eqn:Hcall; [|vm_compute in Hcall; discriminate Hcall].
  exists w'. split; [reflexivity|].
  exact (call_not_repeatable _ _ _ (example_transform "pyg") _ _ Hcall).
Defined.

(** ** When the copier completes *)

Lemma assign_all_dgl_nodes_ok (items : list (string * value)) (n : nat)
    (es : list (nat * nat)) (nd ed : gmap string tensor) :
  is_ok (assign_all dgl.set_ndata items (DGLGraph n es nd ed)) = true
  ↔ ∀ k v, (k, v) ∈ items → fits_frame n v.
Proof.
  revert nd. induction items as [|[k v] items IH]; intros nd; simpl.
  - split; [by intros _ k v ?%elem_of_nil | done].
  - run_monad. destruct (dgl.frame_check n v) as [t|] eqn:Ht.
    + rewrite IH. split.
      * intros H k' v' [[= -> ->]|?]%elem_of_cons; [|eauto].
        apply frame_check_ok. by rewrite Ht.
      * intros H k' v' ?. apply (H k'). by right.
    + split; [done|]. intros H.
      assert (Hv : fits_frame n v) by (apply (H k); by left).
      apply frame_check_ok in Hv. by rewrite Ht in Hv.
Qed.

Lemma assign_all_dgl_edges_ok (items : list (string * value)) (n : nat)
    (es : list (nat * nat)) (nd ed : gmap string tensor) :
  is_ok (assign_all dgl.set_edata items (DGLGraph n es nd ed)) = true
  ↔ ∀ k v, (k, v) ∈ items → fits_frame (length es) v.
Proof.
  revert ed. induction items as [|[k v] items IH]; intros ed; simpl.
  - split; [by intros _ k v ?%elem_of_nil | done].
  - run_monad. destruct (dgl.frame_check (length es) v) as [t|] eqn:Ht.
    + rewrite IH. split.
      * intros H k' v' [[= -> ->]|?]%elem_of_cons; [|eauto].
        apply frame_check_ok. by rewrite Ht.
      * intros H k' v' ?. apply (H k'). by right.
    + split; [done|]. intros H.
      assert (Hv : fits_frame (length es) v) by (apply (H k); by left).
      apply frame_check_ok in Hv. by rewrite Ht in Hv.
Qed.

Lemma is_ok_match {A B} (r : result A) (f : A → B) :
  is_ok (match r with Ok a => Ok (f a) | Raise e => Raise e end) = is_ok r.
Proof. by destruct r. Qed.

(** X15: with the DGL backend each copier completes exactly when every
    configured key that the sample has holds a torch tensor with one row
    per node (node keys) or one row per edge (edge keys); keys that the
    sample lacks never stop it. *)
Theorem dgl_copier_completes_iff (self : PointCloudToGraphTransform) (l : loc) (n : nat)
    (es : list (nat * nat)) (nd ed : gmap string tensor) (w : world) :
  backend self = "dgl" →
  heap w !! l = Some (DGLGraph n es nd ed) →
  (is_ok (copy_node_keys self (VGraph l) w) = true
   ↔ ∀ k v, k ∈ node_keys self → data w !! k = Some v → fits_frame n v)
  ∧ (is_ok (copy_edge_keys self (VGraph l) w) = true
     ↔ ∀ k v, k ∈ default [] (edge_keys self) → data w !! k = Some v →
              fits_frame (length es) v).
Proof.
  intros Hb Hl. split.
  - rewrite (copy_node_keys_loop self l _ w Hl). unfold node_setter.
    rewrite decide_True by done.
    rewrite (is_ok_match _ (fun g' => (tt, World (data w) (<[l:=g']> (heap w)) _))).
    rewrite assign_all_dgl_nodes_ok.
    split; intros H k v.
    + intros Hin Hv. apply (H k). by apply present_items_lookup.
    + intros [Hin Hv]%present_items_lookup. by apply (H k).
  - rewrite (copy_edge_keys_run self l _ w Hl). cbn zeta. unfold edge_setter.
    rewrite decide_True by done.
    rewrite (is_ok_match _ (fun g' => (tt, World (data w) (<[l:=g']> (heap w)) _))).
    rewrite assign_all_dgl_edges_ok.
    split; intros H k v.
    + intros Hin Hv. apply (H k). by apply present_items_lookup.
    + intros [Hin Hv]%present_items_lookup. by apply (H k).
Qed.

Lemma dgl_copier_completes_iff_witness :
  is_ok (copy_node_keys (example_transform "dgl") (VGraph 0)
           (World padded_pair [DGLGraph 2 [(1, 0)] ∅ ∅] [])) = false.
Proof.
  destruct (is_ok (copy_node_keys (example_transform "dgl") (VGraph 0)
                     (World padded_pair [DGLGraph 2 [(1, 0)] ∅ ∅] []))) eqn:Hok;
    [|reflexivity].
  exfalso.
  destruct (dgl_copier_completes_iff (example_transform "dgl") 0 2 [(1, 0)] ∅ ∅
              (World padded_pair [DGLGraph 2 [(1, 0)] ∅ ∅] []) eq_refl eq_refl) as [[H _] _].
  assert (Hin : "atomic_numbers" ∈ node_keys (example_transform "dgl")).
  { apply set_node_keys_spec. apply list_elem_of_here. }
  destruct (H Hok "atomic_numbers" (VTensor (Tensor 3 [] (Longs [6; 6; 0]%Z))) Hin eq_refl)
    as (t & Ht & Hdim).
  injection Ht as <-. discriminate Hdim.
Defined.

(** ** Edge keys and warnings of a completed transform *)

Lemma absent_keys_graph_set (l : loc) (d : gmap string value) (keys : list string) :
  absent_keys (<["graph":=VGraph l]> d) keys = missing_keys d keys.
Proof.
  unfold absent_keys, missing_keys. apply list_filter_iff. intros k. split.
  - intros Hk. destruct (decide (k = "graph")) as [->|Hne].
    + by rewrite lookup_insert_eq in Hk.
    + by rewrite lookup_insert_ne in Hk.
  - intros [Hne Hk]. by rewrite lookup_insert_ne.
Qed.

Section EdgeKeysAndWarnings.

Variable cdist : tensor → tensor → result tensor.
Variable retrieve : value → result (tensor * tensor).

(** X16: with the DGL backend the edge keys leave no trace on the result.
    When the transform completes, the same transform without edge keys
    completes as well, with the same sample and the same graph under
    'graph': the symmetrisation keeps node features only. *)
Theorem dgl_edge_keys_leave_no_trace (self : PointCloudToGraphTransform) (w w' : world) :
  backend self = "dgl" →
  call cdist retrieve self w = Ok (tt, w') →
  ∃ w0 l g,
    call cdist retrieve (without_edge_keys self) w = Ok (tt, w0)
    ∧ data w0 = data w'
    ∧ data w' !! "graph" = Some (VGraph l)
    ∧ heap w' !! l = Some g ∧ heap w0 !! l = Some g.
Proof.
  intros Hb (Hp & a & p & adj & g & g' & Hm & He & Hg & Hc & Hw)%call_inv.
  cbn zeta in *.
  destruct Hw as [(_ & g'' & Hbi & Hd & Hh)|(Hnb & _)]; [|done].
  pose proof Hg as [Hk _]%materialize_kind. destruct (Hk Hb) as (es & _ & ->).
  unfold copy_attributes in Hc. revert Hc. run_monad.
  destruct (assign_all (node_setter self) _ _) as [g1|] eqn:H1; [|done].
  intros H2.
  pose proof H1 as H1'. unfold node_setter in H1'. rewrite decide_True in H1' by done.
  apply assign_all_dgl_nodes in H1' as [[nd' ->] _].
  unfold edge_setter in H2. rewrite decide_True in H2 by done.
  apply assign_all_dgl_edges in H2 as [ed' ->].
  assert (Hc0 : copy_attributes (without_edge_keys self)
                  (<["graph":=VGraph (length (heap w))]> (data w))
                  (DGLGraph (dim0 a) es (<["pos":=p]> (<["atomic_numbers":=a]> ∅)) ∅)
                = Ok (DGLGraph (dim0 a) es nd' ∅)).
  { unfold copy_attributes. run_monad.
    change (node_setter (without_edge_keys self)) with (node_setter self).
    change (node_keys (without_edge_keys self)) with (node_keys self).
    by rewrite H1. }
  exists (World (<["graph":=VGraph (S (length (heap w)))]>
                   (without_keys (<["graph":=VGraph (length (heap w))]> (data w)) redundant_keys))
                (heap w ++ [DGLGraph (dim0 a) es nd' ∅; g''])
                (warnings w
                 ++ (MissingNodeData <$> absent_keys (<["graph":=VGraph (length (heap w))]> (data w))
                                           (node_keys self))
                 ++ [])),
    (S (length (heap w))), g''.
  split_and!.
  - rewrite call_unfold.
    assert (is_ok (prologue (without_edge_keys self) w) = true) as ->
      by (by rewrite prologue_unfold, <- (prologue_unfold self)).
    rewrite Hm.
    change (derived_edges cdist (without_edge_keys self) (data w) p)
      with (derived_edges cdist self (data w) p). rewrite He.
    change (materialize (without_edge_keys self) adj a p) with (materialize self adj a p).
    rewrite Hg. cbn zeta. rewrite Hc0.
    change (backend (without_edge_keys self)) with (backend self).
    rewrite decide_True by done.
    change (dgl.to_bidirected (DGLGraph (dim0 a) es nd' ∅))
      with (dgl.to_bidirected (DGLGraph (dim0 a) es nd' ed')).
    by rewrite Hbi.
  - by rewrite Hd.
  - by rewrite Hd, lookup_insert_eq.
  - rewrite Hh, lookup_app_r by lia.
    by replace (S (length (heap w)) - length (heap w)) with 1 by lia.
  - cbn [heap]. rewrite lookup_app_r by lia.
    by replace (S (length (heap w)) - length (heap w)) with 1 by lia.
Qed.

(** X17: the warnings of a completed transform.  To those issued before it
    adds one for each configured node key that the sample lacks, in the
    order of the node keys, then one for each configured edge key that the
    sample lacks; the key 'graph' is never reported, and neither is a key
    that the sample has. *)
Theorem call_warnings (self : PointCloudToGraphTransform) (w w' : world) :
  call cdist retrieve self w = Ok (tt, w') →
  warnings w'
  = warnings w
    ++ (MissingNodeData <$> missing_keys (data w) (node_keys self))
    ++ (MissingEdgeData <$> missing_keys (data w) (default [] (edge_keys self))).
Proof.
  rewrite call_unfold. destruct (is_ok (prologue self w)).
  2:{ by destruct (prologue self w). }
  destruct (masked_inputs retrieve (data w)) as [[a p]|]; [|done].
  destruct (derived_edges cdist self (data w) p) as [adj|]; [|done].
  destruct (materialize self adj a p) as [g|]; [|done].
  cbn zeta. destruct (copy_attributes self _ g) as [g'|]; [|done].
  rewrite !absent_keys_graph_set.
  destruct (decide (backend self = "dgl")).
  - destruct (dgl.to_bidirected g'); [|done]. by intros [= <-].
  - by intros [= <-].
Qed.

End EdgeKeysAndWarnings.

Lemma dgl_edge_keys_leave_no_trace_witness :
  ∃ w' w0 l g,
    call cdist_reference no_pc_features (bond_transform "dgl") (World bonded_atoms [] [])
    = Ok (tt, w')
    ∧ call cdist_reference no_pc_features (without_edge_keys (bond_transform "dgl"))
        (World bonded_atoms [] []) = Ok (tt, w0)
    ∧ data w0 = data w'
    ∧ heap w' !! l = Some g ∧ heap w0 !! l = Some g.
Proof.
  destruct (call cdist_reference no_pc_features (bond_transform "dgl")
              (World bonded_atoms [] [])) as [[[] w']|e] eqn:Hcall;
    [|vm_compute in Hcall; discriminate Hcall].
  destruct (dgl_edge_keys_leave_no_trace cdist_reference no_pc_features
              (bond_transform "dgl") _ _ eq_refl Hcall)
    as (w0 & l & g & H0 & Hd & _ & Hh & Hh0).
  exists w', w0, l, g. repeat split; assumption.
Defined.

Lemma call_warnings_witness :
  ∃ w',
    call cdist_reference no_pc_features (bond_transform "pyg") (World bonded_atoms [] [])
    = Ok (tt, w')
    ∧ warnings w' = [MissingNodeData "force"; MissingEdgeData "bond_length"].
Proof.
  destruct (call cdist_reference no_pc_features (bond_transform "pyg")
              (World bonded_atoms [] [])) as [[[] w']|e] eqn:Hcall;
    [|vm_compute in Hcall; discriminate Hcall].
  exists w'. split; [reflexivity|].
  rewrite (call_warnings _ _ _ _ _ Hcall). vm_compute. reflexivity.
Defined.

(** ** When the transform completes *)

Lemma copy_attributes_dgl_ok (self : PointCloudToGraphTransform) (d : gmap string value)
    (n : nat) (es : list (nat * nat)) (nd ed : gmap string tensor) :
  backend self = "dgl" →
  is_ok (copy_attributes self d (DGLGraph n es nd ed)) = true
  ↔ (∀ k v, k ∈ node_keys self → d !! k = Some v → fits_frame n v)
    ∧ (∀ k v, k ∈ default [] (edge_keys self) → d !! k = Some v →
              fits_frame (length es) v).
Proof.
  intros Hb. unfold copy_attributes, node_setter, edge_setter.
  rewrite !decide_True by done. run_monad.
  assert (Hn : is_ok (assign_all dgl.set_ndata (present_items d (node_keys self))
                        (DGLGraph n es nd ed)) = true
               ↔ ∀ k v, k ∈ node_keys self → d !! k = Some v → fits_frame n v).
  { rewrite assign_all_dgl_nodes_ok. split; intros H k v.
    - intros Hin Hv. apply (H k). by apply present_items_lookup.
    - intros [Hin Hv]%present_items_lookup. by apply (H k). }
  assert (He : ∀ nd' ed',
            is_ok (assign_all dgl.set_edata (present_items d (default [] (edge_keys self)))
                     (DGLGraph n es nd' ed')) = true
            ↔ ∀ k v, k ∈ default [] (edge_keys self) → d !! k = Some v →
                     fits_frame (length es) v).
  { intros nd' ed'. rewrite assign_all_dgl_edges_ok. split; intros H k v.
    - intros Hin Hv. apply (H k). by apply present_items_lookup.
    - intros [Hin Hv]%present_items_lookup. by apply (H k). }
  destruct (assign_all dgl.set_ndata _ _) as [g1|] eqn:H1.
  - pose proof H1 as [[nd' ->] _]%assign_all_dgl_nodes.
    rewrite He. split; [|by intros [_ ?]].
    intros H. split; [by apply Hn | done].
  - split; [done|]. intros [H _]. by apply Hn in H.
Qed.

Section Completion.

Variable cdist : tensor → tensor → result tensor.
Variable retrieve : value → result (tensor * tensor).

(** X18: when the transform completes.  Once the validator has accepted
    the sample and the conversion has built the graph, the PyG transform
    always completes.  The DGL transform completes exactly when every
    configured node key that the sample then has holds a torch tensor with
    one row per node, and every configured edge key that it has a torch
    tensor with one row per derived edge; a configured key 'graph' thus
    always stops it. *)
Theorem call_completes_iff (self : PointCloudToGraphTransform) (w w1 : world) :
  is_ok (prologue self w) = true →
  convert cdist retrieve self w = Ok (tt, w1) →
  ∃ g,
    data w1 !! "graph" = Some (VGraph (length (heap w)))
    ∧ heap w1 !! length (heap w) = Some g
    ∧ match g with
      | PyGGraph _ =>
          backend self ≠ "dgl" ∧ is_ok (call cdist retrieve self w) = true
      | DGLGraph n es _ _ =>
          backend self = "dgl"
          ∧ (is_ok (call cdist retrieve self w) = true
             ↔ (∀ k v, k ∈ node_keys self → data w1 !! k = Some v → fits_frame n v)
               ∧ (∀ k v, k ∈ default [] (edge_keys self) → data w1 !! k = Some v →
                         fits_frame (length es) v))
      end.
Proof.
  intros Hp. rewrite convert_unfold, call_unfold, Hp.
  destruct (masked_inputs retrieve (data w)) as [[a p]|]; [|done].
  destruct (derived_edges cdist self (data w) p) as [adj|]; [|done].
  destruct (materialize self adj a p) as [g|] eqn:Hg; [|done].
  intros [= <-]. exists g. cbn [data heap]. split; [by rewrite lookup_insert_eq|].
  split; [rewrite lookup_app_r by lia; by rewrite Nat.sub_diag|].
  cbn zeta. apply materialize_kind in Hg as [Hg1 Hg2].
  destruct (decide (backend self = "dgl")) as [Hb|Hb].
  - destruct (Hg1 Hb) as (es & _ & ->). split; [done|].
    rewrite <- (copy_attributes_dgl_ok self (<["graph":=VGraph (length (heap w))]> (data w))
                  (dim0 a) es (<["pos":=p]> (<["atomic_numbers":=a]> ∅)) ∅ Hb).
    destruct (copy_attributes self _ _) as [g'|] eqn:Hc; [|done].
    apply copy_attributes_dgl in Hc as [(nd' & ed' & ->) _]; done.
  - destruct (Hg2 Hb) as (ei & _ & ->). split; [done|].
    destruct (copy_attributes_pyg self (<["graph":=VGraph (length (heap w))]> (data w))
                (<["atomic_numbers":=VTensor a]>
                   (<["pos":=VTensor p]> (<["edge_index":=VTensor ei]> ∅))) Hb)
      as (attrs' & -> & _). done.
Qed.

(** X19: the conversion without the validator.  On a sample that holds no
    graph and no 'pc_features' and that the validator rejects, the
    conversion called on its own raises a KeyError where the validator
    raises an AssertionError: that of the atom-type resolver when
    'atomic_numbers' is missing, and else the one for 'pos'. *)
Theorem convert_unvalidated_key_error (self : PointCloudToGraphTransform) (w : world) :
  (∀ k v, data w !! k = Some v → is_graph v = false) →
  data w !! "pc_features" = None →
  is_ok (prologue self w) = false →
  convert cdist retrieve self w
  = Raise (KeyError (if dict_contains (data w) "atomic_numbers" then "pos"
                     else no_atom_types_message)).
Proof.
  intros Hng Hpc Hrej.
  apply prologue_raises_iff_aux in Hrej as [(k & v & Hk & Hv)|[Hpos|[Hat _]]].
  - by rewrite (Hng k v Hk) in Hv.
  - rewrite convert_unfold. unfold masked_inputs, get_atom_types, dict_getitem, dict_contains.
    rewrite Hpc, Hpos. run_monad. by destruct (data w !! "atomic_numbers").
  - rewrite convert_unfold. unfold masked_inputs, get_atom_types, dict_getitem, dict_contains.
    by rewrite Hpc, Hat.
Qed.

End Completion.

Lemma call_completes_iff_witness :
  ∃ w1 g,
    convert cdist_reference no_pc_features egnn_transform (World two_atoms [] [])
    = Ok (tt, w1)
    ∧ data w1 !! "graph" = Some (VGraph 0) ∧ heap w1 !! 0 = Some g.
Proof.
  destruct (convert cdist_reference no_pc_features egnn_transform (World two_atoms [] []))
    as [[[] w1]|e] eqn:Hconv; [|vm_compute in Hconv; discriminate Hconv].
  destruct (call_completes_iff cdist_reference no_pc_features egnn_transform
              (World two_atoms [] []) w1 eq_refl Hconv) as (g & Hd & Hh & _).
  exists w1, g. repeat split; assumption.
Defined.

Lemma convert_unvalidated_key_error_witness :
  convert cdist_reference no_pc_features (example_transform "dgl")
    (World (delete "pos" two_atoms) [] [])
  = Raise (KeyError "pos").
Proof.
  etransitivity.
  - apply (convert_unvalidated_key_error cdist_reference no_pc_features
             (example_transform "dgl") (World (delete "pos" two_atoms) [] [])).
    + intros k v Hk. cbn [data] in Hk.
      apply lookup_delete_Some in Hk as [_ Hk]. unfold two_atoms in Hk.
      repeat (apply lookup_insert_Some in Hk as [[_ <-]|[_ Hk]]; [reflexivity|]).
      by apply lookup_empty_Some in Hk.
    + reflexivity.
    + vm_compute. reflexivity.
  - vm_compute. reflexivity.
Defined.

(** ** The PyG conversion with at least one edge *)

Lemma length_unravel (s : list nat) (p : nat) : length (torch.unravel s p) = length s.
Proof. revert p. induction s as [|n s IH]; intros p; simpl; [done | by rewrite IH]. Qed.

(** The rows of an edge list all have the length of the matrix's shape. *)
Lemma edges_from_dist_uniform (dm : value) (c : float) (adj_list : list (list nat)) :
  edges_from_dist dm c = Ok adj_list →
  ∃ k, ∀ e, e ∈ adj_list → length e = k.
Proof.
  unfold edges_from_dist. run_monad.
  destruct dm as [t|t|x|l]; try done;
    (unfold torch.tril; destruct (torch.last2 (shape t)) as [[n m]|]; [|done];
     intros [= <-]; exists (length (shape t));
     intros e (q & -> & _)%list_elem_of_fmap; by rewrite length_unravel).
Qed.

Lemma LongTensor_uniform (rows : list (list nat)) (k : nat) :
  rows ≠ [] → (∀ e, e ∈ rows → length e = k) →
  torch.LongTensor rows
  = Ok (Tensor (length rows) [k] (Longs (Z.of_nat <$> concat rows))).
Proof.
  intros Hne Hk. destruct rows as [|r rows]; [done|].
  unfold torch.LongTensor.
  assert (forallb (fun e => length e =? length r) (r :: rows) = true) as ->.
  { apply forallb_forall. intros e He%list_elem_of_In.
    apply Nat.eqb_eq. rewrite (Hk e He). symmetry. apply Hk. by left. }
  do 3 f_equal. f_equal. apply Hk. by left.
Qed.

Lemma pyg_edge_index_uniform (rows : list (list nat)) (k : nat) :
  rows ≠ [] → (∀ e, e ∈ rows → length e = k) →
  is_ok (pyg_edge_index rows) = true.
Proof.
  intros Hne Hk. unfold pyg_edge_index. rewrite (LongTensor_uniform rows k) by done.
  run_monad. unfold torch.size, shape. cbn [dim0 dims lookup list_lookup].
  by destruct (negb _).
Qed.

Section PygConversion.

Variable cdist : tensor → tensor → result tensor.
Variable retrieve : value → result (tensor * tensor).

(** X20: the PyG conversion completes whenever there is an edge.  Given the
    filtered labels and positions and a derived edge list that is not
    empty, it stores under 'graph' a new graph whose attributes are the
    edge index, the filtered positions and the filtered labels, and leaves
    the rest of the sample, the earlier graph objects and the warnings as
    they are.  Unlike the DGL conversion it does not compare the edges with
    the number of kept atoms. *)
Theorem pyg_conversion_with_edges (self : PointCloudToGraphTransform) (w : world)
    (a p : tensor) (adj_list : list (list nat)) :
  backend self ≠ "dgl" →
  masked_inputs retrieve (data w) = Ok (a, p) →
  derived_edges cdist self (data w) p = Ok adj_list →
  adj_list ≠ [] →
  ∃ ei,
    pyg_edge_index adj_list = Ok ei
    ∧ convert cdist retrieve self w
      = Ok (tt, World (<["graph":=VGraph (length (heap w))]> (data w))
                  (heap w ++ [PyGGraph (<["atomic_numbers":=VTensor a]>
                                          (<["pos":=VTensor p]>
                                             (<["edge_index":=VTensor ei]> ∅)))])
                  (warnings w)).
Proof.
  intros Hb Hm He Hne.
  assert (Hu : ∃ k, ∀ e, e ∈ adj_list → length e = k).
  { unfold derived_edges in He. revert He. run_monad.
    destruct (distance_matrix_of cdist (data w) p) as [dm|]; [|done].
    apply edges_from_dist_uniform. }
  destruct Hu as [k Hk].
  pose proof (pyg_edge_index_uniform adj_list k Hne Hk) as Hok.
  destruct (pyg_edge_index adj_list) as [ei|] eqn:Hei; [|done].
  exists ei. split; [done|].
  rewrite convert_unfold, Hm, He. unfold materialize. rewrite decide_False by done.
  unfold pyg_materialize. by rewrite Hei.
Qed.

End PygConversion.

Lemma pyg_conversion_with_edges_witness :
  ∃ ei,
    pyg_edge_index [[1; 0]] = Ok ei
    ∧ convert cdist_reference no_pc_features (example_transform "pyg") (World two_atoms [] [])
      = Ok (tt, World (<["graph":=VGraph 0]> two_atoms)
                  [PyGGraph (<["atomic_numbers":=VTensor (Tensor 2 [] (Longs [6; 6]%Z))]>
                               (<["pos":=VTensor (Tensor 2 [3] (Floats [0; 0; 0; 3; 4; 0]%float))]>
                                  (<["edge_index":=VTensor ei]> ∅)))]
                  []).
Proof.
  apply (pyg_conversion_with_edges cdist_reference no_pc_features
           (example_transform "pyg") (World two_atoms [] [])
           (Tensor 2 [] (Longs [6; 6]%Z)) (Tensor 2 [3] (Floats [0; 0; 0; 3; 4; 0]%float))
           [[1; 0]]).
  - discriminate.
  - vm_compute. reflexivity.
  - vm_compute. reflexivity.
  - discriminate.
Defined.

(** ** The DGL transform on a sample without padding *)

Section CleanSample.

Variable cdist : tensor → tensor → result tensor.
Variable retrieve : value → result (tensor * tensor).


End CleanSample.

